(** * A shallow embedding of pro200/go-storage

    Two near-duplicate Go implementations are modelled:
    - [StorageGo]  : src/storage.go       ([NewStorage], with the bunnycdn path);
    - [Part000]    : src/unnamed/part_000 ([New], with remote-URL uploads).

    Every collaborator (AWS SDK client, HTTP transport, file system,
    [utils.ContentType], [awsConfig.LoadDefaultConfig]) is an oracle in a
    read-only [world]; each operation returns the trace of the collaborator
    calls it issued together with its Go result (value, error or panic). *)

From Stdlib Require Import String Ascii List ZArith Bool Lia.
Import ListNotations.
Open Scope string_scope.
Open Scope Z_scope.

(* ------------------------------------------------------------------ *)
(** ** Go strings and the [strings] package *)

(** [strings.HasPrefix s p] *)
Definition HasPrefix (s p : string) : bool := String.prefix p s.

(** [strings.Contains s sub]: [sub] occurs at some position of [s]. *)
Fixpoint Contains (s sub : string) : bool :=
  String.prefix sub s ||
  match s with
  | EmptyString => false
  | String _ s' => Contains s' sub
  end.

(** [strings.Split s sep] for a non-empty separator [sep] (the code only
    uses ["."]). [fuel] bounds the number of cuts; [length s] suffices. *)
Fixpoint split_fuel (fuel : nat) (s sep : string) : list string :=
  match fuel with
  | O => [s]
  | S f =>
      match String.index 0 sep s with
      | None => [s]
      | Some i =>
          String.substring 0 i s
            :: split_fuel f (String.substring (i + String.length sep)
                               (String.length s) s) sep
      end
  end.

Definition Split (s sep : string) : list string :=
  split_fuel (S (String.length s)) s sep.

(** Bytes of a Go [[]byte] and their conversion with [string(b)]. *)
Definition bytes := list Byte.byte.

Definition string_of_bytes (b : bytes) : string :=
  string_of_list_ascii (List.map ascii_of_byte b).

(** Decimal rendering of an integer, as [fmt]'s [%d] prints it. *)
Fixpoint digits_fuel (fuel : nat) (n : Z) (acc : string) : string :=
  match fuel with
  | O => acc
  | S f =>
      let d := ascii_of_nat (48 + Z.to_nat (n mod 10)) in
      let q := n / 10 in
      if q =? 0 then String d acc else digits_fuel f q (String d acc)
  end.

Definition string_of_Z (n : Z) : string :=
  if n <? 0 then "-" ++ digits_fuel (S (Z.to_nat (- n))) (- n) ""
  else digits_fuel (S (Z.to_nat n)) n "".

(** Go's [int] is 64-bit here; [int32(x)] keeps the low 32 bits, signed. *)
Definition int32_of_int (x : Z) : Z :=
  let m := x mod 2 ^ 32 in
  if m >=? 2 ^ 31 then m - 2 ^ 32 else m.

Definition is_go_int (x : Z) : Prop := - 2 ^ 63 <= x < 2 ^ 63.

(* ------------------------------------------------------------------ *)
(** ** Go results and the operation monad *)

(** The Go result of an operation: a value (with a nil error), a non-nil
    error carrying its message, or a run-time panic. *)
Inductive outcome (A : Type) : Type :=
| Ok (a : A)
| Err (e : string)
| Panic.
Arguments Ok {A} a.
Arguments Err {A} e.
Arguments Panic {A}.

Record Config := mkConfig {
  Endpoint : string;
  Region : string;
  AccessKeyID : string;
  SecretAccessKey : string;
}.

(** An HTTP request as built by [http.NewRequest] plus [Header.Set]. *)
Inductive body :=
| NoBody
| BodyBytes (b : bytes)          (* bytes.NewReader(file) *)
| BodyFile (path : string)       (* the *os.File opened on path *)
| BodyRemote (url : string).     (* resp.Body of the GET on url *)

Record http_request := mkRequest {
  req_method : string;
  req_url : string;
  req_headers : list (string * string);
  req_body : body;
}.

Record http_response := mkResponse {
  resp_status_code : Z;
  resp_status : string;
  resp_headers : list (string * string);
  resp_content_length : Z;
  resp_body : bytes;
}.

(** [http.Header.Set]: replaces every value of [k] by [v]. *)
Definition header_set (h : list (string * string)) (k v : string)
  : list (string * string) :=
  List.filter (fun kv => negb (String.eqb (fst kv) k)) h ++ [(k, v)].

(** [http.Header.Get]: the first value of [k], or [""]. *)
Fixpoint header_get (h : list (string * string)) (k : string) : string :=
  match h with
  | [] => ""
  | (k', v) :: h' => if String.eqb k' k then v else header_get h' k
  end.

(** [s3.PutObjectInput] as the code fills it. *)
Record put_input := mkPut {
  put_bucket : string;
  put_key : string;
  put_body : body;
  put_content_type : string;
}.

(** [s3.ListObjectsV2Input] as the code fills it. *)
Record list_input := mkList {
  list_bucket : string;
  list_prefix : string;
  list_max_keys : Z;
  list_token : option string;
}.

(** [s3.ListObjectsV2Output]: [Contents[i].Key] and [NextContinuationToken]
    are pointers, [None] standing for nil. *)
Record list_output := mkListOut {
  out_contents : list (option string);
  out_next_token : option string;
}.

(** [s3.HeadObjectOutput]: its [ContentLength] pointer. *)
Record head_output := mkHead {
  head_content_length : option Z;
}.

(** Every call to a collaborator that an operation can issue. *)
Inductive event :=
| EvLoadConfig (access secret region : string)
| EvReadFile (path : string)
| EvOpen (path : string)
| EvStat (path : string)
| EvCreate (path : string)
| EvCopy (path : string) (b : bytes)
| EvHttp (r : http_request)
| EvS3Head (bucket key : string)
| EvS3List (i : list_input)
| EvS3Put (i : put_input)
| EvS3Get (bucket key target : string)
| EvS3Delete (bucket key : string)
| EvPresignGet (bucket key : string) (ttl : Z)
| EvPresignPut (bucket key : string) (ttl : Z).

(** The collaborators' answers. An [option string] answer is Go's [error]:
    [None] is nil, [Some msg] an error with that message. *)
Record world := mkWorld {
  w_load_config : string -> string -> string -> option string;
  w_content_type : string -> string;                    (* utils.ContentType *)
  w_read_file : string -> outcome bytes;                (* os.ReadFile *)
  w_open : string -> option string;                     (* os.Open *)
  w_stat : string -> option Z;                          (* file.Stat().Size(); None: Stat failed *)
  w_create : string -> option string;                   (* os.Create *)
  w_copy : string -> bytes -> option string;            (* io.Copy into the file *)
  w_new_request : string -> string -> option string;    (* http.NewRequest's URL check *)
  w_http : http_request -> outcome http_response;       (* http.DefaultClient.Do *)
  w_s3_head : string -> string -> outcome head_output;  (* HeadObject *)
  w_s3_list : list_input -> outcome list_output;        (* ListObjectsV2 *)
  w_s3_put : put_input -> option string;                (* manager.Uploader.Upload *)
  w_s3_get : string -> string -> string -> option string; (* manager.Downloader.Download *)
  w_s3_delete : string -> string -> option string;      (* DeleteObject *)
  w_presign_get : string -> string -> Z -> outcome string;
  w_presign_put : string -> string -> Z -> outcome string;
}.

(** Reader (world), writer (trace) and error (outcome) in one monad. *)
Definition M (A : Type) : Type := world -> list event * outcome A.

Definition ret {A} (a : A) : M A := fun _ => ([], Ok a).
Definition fail {A} (e : string) : M A := fun _ => ([], Err e).
Definition panic {A} : M A := fun _ => ([], Panic).

Definition bind {A B} (m : M A) (f : A -> M B) : M B :=
  fun w =>
    let (t1, r) := m w in
    match r with
    | Ok a => let (t2, r2) := f a w in (List.app t1 t2, r2)
    | Err e => (t1, Err e)
    | Panic => (t1, Panic)
    end.

Notation "x <- m ;; k" := (bind m (fun x => k))
  (at level 61, m at next level, right associativity).

(** Issue a call [ev] whose answer the world gives. *)
Definition call {A} (ev : event) (ans : world -> outcome A) : M A :=
  fun w => ([ev], ans w).

(** Issue a call returning a Go [error]; a non-nil one is returned. *)
Definition call_err (ev : event) (ans : world -> option string) : M unit :=
  fun w => ([ev], match ans w with None => Ok tt | Some e => Err e end).

(** Read a pure, call-free piece of the world. *)
Definition ask {A} (f : world -> A) : M A := fun w => ([], Ok (f w)).

(* ------------------------------------------------------------------ *)
(** ** Configuration normalisation (lines 45-60 of [NewStorage], 41-56
    of [New]; the two are identical) *)

(** storage.go:49-51 / part_000:45-47 *)
Definition normalize_endpoint (e : string) : string :=
  if negb (HasPrefix e "http://") && negb (HasPrefix e "https://")
  then "https://" ++ e else e.

(** storage.go:53-56 / part_000:49-52: the region read from the second
    dot-separated part of a Backblaze endpoint; [None] when [parts[1]] is
    out of range (a panic). *)
Definition region_from_endpoint (ep region : string) : option string :=
  if String.eqb region "" && Contains ep "backblazeb2"
  then nth_error (Split ep ".") 1
  else Some region.

(** storage.go:58-60 / part_000:54-56 *)
Definition default_region (region : string) : string :=
  if String.eqb region "" then "auto" else region.

(** storage.go:44-60 / part_000:40-56: the endpoint check (the two
    files differ only in the message [missing]), the scheme and the
    region. *)
Definition prepare_config (missing : string) (config : Config) : outcome Config :=
  if String.eqb (Endpoint config) "" then Err missing
  else
    let ep := normalize_endpoint (Endpoint config) in
    match region_from_endpoint ep (Region config) with
    | None => Panic
    | Some r =>
        Ok (mkConfig ep (default_region r) (AccessKeyID config) (SecretAccessKey config))
    end.

(** Lift a pure Go result into [M]. *)
Definition lift {A} (o : outcome A) : M A := fun _ => ([], o).

(* ------------------------------------------------------------------ *)
(** ** src/storage.go *)

Module StorageGo.

Inductive SType := r2 | backblaze | bunnyCDN | etc.

Definition SType_eqb (a b : SType) : bool :=
  match a, b with
  | r2, r2 | backblaze, backblaze | bunnyCDN, bunnyCDN | etc, etc => true
  | _, _ => false
  end.

(** [Storage]: [has_client] says whether [client] and [presignClient] are
    non-nil (they are set together). *)
Record Storage := mkStorage {
  config : Config;
  has_client : bool;
}.

Definition missing_endpoint : string :=
  "missing endpoint: <account-id>.r2.cloudflarestorage.com or s3.<region>.backblazeb2.com or storage.bunnycdn.com".

(** storage.go:44-86 *)
Definition NewStorage (config0 : Config) : M Storage :=
  config <- lift (prepare_config missing_endpoint config0) ;;
  if Contains (Endpoint config) "bunnycdn" then ret (mkStorage config false)
  else
    _ <- call_err (EvLoadConfig (AccessKeyID config) (SecretAccessKey config)
                                (Region config))
                  (fun w => w_load_config w (AccessKeyID config)
                              (SecretAccessKey config) (Region config)) ;;
    ret (mkStorage config true).

(** storage.go:88-97 *)
Definition Type_ (s : Storage) : SType :=
  if Contains (Endpoint (config s)) "cloudflarestorage" then r2
  else if Contains (Endpoint (config s)) "backblazeb2" then backblaze
  else if Contains (Endpoint (config s)) "bunnycdn" then bunnyCDN
  else etc.

(** A method call on the nil [*s3.Client] panics. *)
Definition need_client (s : Storage) : M unit :=
  if has_client s then ret tt else panic.

(** storage.go:99-108 *)
Definition Info (s : Storage) (bucket key : string) : M head_output :=
  if SType_eqb (Type_ s) bunnyCDN then
    fail "bunnycdn storage does not support Info operation"
  else
    _ <- need_client s ;;
    call (EvS3Head bucket key) (fun w => w_s3_head w bucket key).

(** [aws.ToString] *)
Definition ToString (p : option string) : string :=
  match p with Some v => v | None => "" end.

(** storage.go:110-143 ([token] is the variadic [token ...string]) *)
Definition List_ (s : Storage) (bucket prefix : string) (length : Z)
    (token : list string) : M (list string * string) :=
  if SType_eqb (Type_ s) bunnyCDN then
    fail "bunnycdn storage does not support List operation"
  else
    let length := if length >? 1000 then 1000 else length in
    let options := mkList bucket prefix (int32_of_int length)
                     (match token with t :: _ => Some t | [] => None end) in
    _ <- need_client s ;;
    output <- call (EvS3List options) (fun w => w_s3_list w options) ;;
    ret (List.map ToString (out_contents output),
         ToString (out_next_token output)).

(** The URL of the bunnycdn path: [fmt.Sprintf("%s/%s/%s", ...)]. *)
Definition cdn_url (s : Storage) (bucket key : string) : string :=
  Endpoint (config s) ++ "/" ++ bucket ++ "/" ++ key.

(** [http.NewRequest(method, url, body)]: its error is the URL's. *)
Definition NewRequest (method url : string) (b : body) : M http_request :=
  fun w => ([], match w_new_request w method url with
                | None => Ok (mkRequest method url [] b)
                | Some e => Err e
                end).

Definition set_header (r : http_request) (k v : string) : http_request :=
  mkRequest (req_method r) (req_url r) (header_set (req_headers r) k v)
            (req_body r).

Definition Do (r : http_request) : M http_response :=
  call (EvHttp r) (fun w => w_http w r).

(** storage.go:145-209 ([forceType] is the variadic [forceType ...string]) *)
Definition Upload (s : Storage) (bucket path key : string)
    (forceType : list string) : M unit :=
  file <- call (EvReadFile path) (fun w => w_read_file w path) ;;
  if Nat.eqb (List.length file) 0 then fail "zero size file"
  else
    contentType <- ask (fun w => match forceType with
                                 | ct :: _ => ct
                                 | [] => w_content_type w path
                                 end) ;;
    if SType_eqb (Type_ s) bunnyCDN then
      let url := cdn_url s bucket key in
      req <- NewRequest "PUT" url (BodyBytes file) ;;
      let req := set_header req "AccessKey" (SecretAccessKey (config s)) in
      let req := set_header req "Content-Type" contentType in
      res <- Do req ;;
      if resp_status_code res >=? 300 then
        fail ("upload failed: " ++ string_of_bytes (resp_body res))
      else ret tt
    else
      _ <- need_client s ;;
      let input := mkPut bucket key (BodyBytes file) contentType in
      _ <- call_err (EvS3Put input) (fun w => w_s3_put w input) ;;
      result <- call (EvS3Head bucket key) (fun w => w_s3_head w bucket key) ;;
      match head_content_length result with
      | None => panic                                   (* *result.ContentLength on nil *)
      | Some n =>
          if negb (Z.eqb (Z.of_nat (List.length file)) n)
          then fail "upload failed" else ret tt
      end.

(** storage.go:211-236; the error of [http.NewRequest] is dropped, so a
    bad URL leaves [req] nil and [req.Header.Set] panics. *)
Definition Delete (s : Storage) (bucket key : string) : M unit :=
  if SType_eqb (Type_ s) bunnyCDN then
    let url := cdn_url s bucket key in
    req <- (fun w => ([], match w_new_request w "DELETE" url with
                          | None => Ok (mkRequest "DELETE" url [] NoBody)
                          | Some _ => Panic
                          end)) ;;
    let req := set_header req "AccessKey" (SecretAccessKey (config s)) in
    res <- Do req ;;
    if resp_status_code res >=? 300 then
      fail ("delete failed: " ++ string_of_bytes (resp_body res))
    else ret tt
  else
    _ <- need_client s ;;
    call_err (EvS3Delete bucket key) (fun w => w_s3_delete w bucket key).

(** storage.go:238-285 *)
Definition Download (s : Storage) (bucket key targetPath : string) : M unit :=
  if SType_eqb (Type_ s) bunnyCDN then
    let url := cdn_url s bucket key in
    req <- NewRequest "GET" url NoBody ;;
    let req := set_header req "AccessKey" (SecretAccessKey (config s)) in
    res <- Do req ;;
    if negb (Z.eqb (resp_status_code res) 200) then
      fail ("download failed, status: " ++ string_of_Z (resp_status_code res))
    else
      _ <- call (EvCreate targetPath)
             (fun w => match w_create w targetPath with
                       | None => Ok tt
                       | Some e => Err ("cannot create file: " ++ e)
                       end) ;;
      call (EvCopy targetPath (resp_body res))
           (fun w => match w_copy w targetPath (resp_body res) with
                     | None => Ok tt
                     | Some e => Err ("failed to write file: " ++ e)
                     end)
  else
    _ <- call (EvCreate targetPath)
           (fun w => match w_create w targetPath with
                     | None => Ok tt
                     | Some e => Err ("cannot create file: " ++ e)
                     end) ;;
    _ <- need_client s ;;
    call_err (EvS3Get bucket key targetPath)
             (fun w => w_s3_get w bucket key targetPath).

(** storage.go:287-300 *)
Definition PresignGet (s : Storage) (bucket key : string) (ttl : Z) : M string :=
  if SType_eqb (Type_ s) bunnyCDN then
    fail "bunnycdn storage does not support Presign operation"
  else
    _ <- need_client s ;;
    call (EvPresignGet bucket key ttl) (fun w => w_presign_get w bucket key ttl).

(** storage.go:302-315 *)
Definition PresignPut (s : Storage) (bucket key : string) (ttl : Z) : M string :=
  if SType_eqb (Type_ s) bunnyCDN then
    fail "bunnycdn storage does not support Presign operation"
  else
    _ <- need_client s ;;
    call (EvPresignPut bucket key ttl) (fun w => w_presign_put w bucket key ttl).

End StorageGo.

(* ------------------------------------------------------------------ *)
(** ** src/unnamed/part_000 *)

Module Part000.

(** [Storage]: [New] always sets [client] and [presignClient]. *)
Record Storage := mkStorage {
  config : Config;
}.

(** part_000:27-30; a Go map is given as the list of its entries, in the
    (unspecified) order in which [range] visits them. *)
Record Options := mkOptions {
  Headers : list (string * string);
  ContentType : string;
}.

Definition missing_endpoint : string :=
  "missing endpoint: <account-id>.r2.cloudflarestorage.com or s3.<region>.backblazeb2.com".

(** part_000:40-75 *)
Definition New (config0 : Config) : M Storage :=
  config <- lift (prepare_config missing_endpoint config0) ;;
  _ <- call_err (EvLoadConfig (AccessKeyID config) (SecretAccessKey config)
                              (Region config))
                (fun w => w_load_config w (AccessKeyID config)
                            (SecretAccessKey config) (Region config)) ;;
  ret (mkStorage config).

(** part_000:84-113 *)
Definition List_ (s : Storage) (bucket prefix : string) (length : Z)
    (token : list string) : M (list string * string) :=
  let length := if length >? 1000 then 1000 else length in
  let options := mkList bucket prefix (int32_of_int length)
                   (match token with t :: _ => Some t | [] => None end) in
  output <- call (EvS3List options) (fun w => w_s3_list w options) ;;
  ret (List.map StorageGo.ToString (out_contents output),
       StorageGo.ToString (out_next_token output)).

(** part_000:124-127: the options in effect. *)
Definition first_options (options : list Options) : Options :=
  match options with o :: _ => o | [] => mkOptions [] "" end.

(** part_000:131-136: the GET on the origin with the caller's headers. *)
Definition origin_request (opt : Options) (origin : string) : http_request :=
  List.fold_left (fun r kv => StorageGo.set_header r (fst kv) (snd kv))
                 (Headers opt) (mkRequest "GET" origin [] NoBody).

(** part_000:116-168: the source's content type and size. The error of
    [http.NewRequest] is dropped: on a bad URL [req] is nil and its next
    use ([req.Header.Set] or [http.DefaultClient.Do]) panics; likewise
    [stat, _ := file.Stat()]. *)
Definition resolve_source (origin : string) (options : list Options) : M (string * Z) :=
  let isRemote := HasPrefix origin "https://" in
  let opt := first_options options in
  src <- (if isRemote then
            _ <- (fun w => ([], match w_new_request w "GET" origin with
                                | None => Ok tt
                                | Some _ => Panic
                                end)) ;;
            let req := origin_request opt origin in
            resp <- StorageGo.Do req ;;
            if negb (Z.eqb (resp_status_code resp) 200) then
              fail ("origin download failed: " ++ resp_status resp)
            else
              let ct := if String.eqb (ContentType opt) ""
                        then header_get (resp_headers resp) "Content-Type"
                        else ContentType opt in
              ret (ct, resp_content_length resp)
          else
            _ <- call_err (EvOpen origin) (fun w => w_open w origin) ;;
            size <- call (EvStat origin)
                      (fun w => match w_stat w origin with
                                | Some n => Ok n
                                | None => Panic
                                end) ;;
            ret (ContentType opt, size)) ;;
  let (ct, size) := src in
  ct <- ask (fun w => if String.eqb ct "" then w_content_type w origin else ct) ;;
  ret (ct, size).

(** part_000:115-207 *)
Definition Upload (s : Storage) (bucket key origin : string)
    (options : list Options) : M unit :=
  let isRemote := HasPrefix origin "https://" in
  src <- resolve_source origin options ;;
  let (ct, size) := src in
  if Z.eqb size 0 then fail "zero size file"
  else
    let input := mkPut bucket key
                   (if isRemote then BodyRemote origin else BodyFile origin) ct in
    _ <- call_err (EvS3Put input) (fun w => w_s3_put w input) ;;
    result <- call (EvS3Head bucket key) (fun w => w_s3_head w bucket key) ;;
    match head_content_length result with
    | None => panic
    | Some n => if negb (Z.eqb size n) then fail "upload failed" else ret tt
    end.

(** part_000:77-82 *)
Definition Info (s : Storage) (bucket key : string) : M head_output :=
  call (EvS3Head bucket key) (fun w => w_s3_head w bucket key).

(** part_000:209-216 *)
Definition Delete (s : Storage) (bucket key : string) : M unit :=
  call_err (EvS3Delete bucket key) (fun w => w_s3_delete w bucket key).

(** part_000:218-232 *)
Definition Download (s : Storage) (bucket key targetPath : string) : M unit :=
  _ <- call (EvCreate targetPath)
         (fun w => match w_create w targetPath with
                   | None => Ok tt
                   | Some e => Err ("cannot create file: " ++ e)
                   end) ;;
  call_err (EvS3Get bucket key targetPath)
           (fun w => w_s3_get w bucket key targetPath).

(** part_000:234-243 *)
Definition PresignGet (s : Storage) (bucket key : string) (ttl : Z) : M string :=
  call (EvPresignGet bucket key ttl) (fun w => w_presign_get w bucket key ttl).

(** part_000:245-254 *)
Definition PresignPut (s : Storage) (bucket key : string) (ttl : Z) : M string :=
  call (EvPresignPut bucket key ttl) (fun w => w_presign_put w bucket key ttl).

End Part000.

(* ------------------------------------------------------------------ *)
(** ** Concrete collaborators, for evaluating the operations *)

(** An extension-based content-type guesser, in the manner of
    [utils.ContentType]. *)
Definition sample_content_type (p : string) : string :=
  if Contains p ".png" then "image/png"
  else if Contains p ".txt" then "text/plain"
  else "application/octet-stream".

Definition sample_response (code : Z) (status : string) (b : bytes) : http_response :=
  mkResponse code status [] (Z.of_nat (List.length b)) b.

(** A world where every call succeeds: files hold three bytes, HTTP calls
    answer [201], and the store reports [stored] as the object size. *)
Definition sample_world (stored : Z) : world :=
  mkWorld
    (fun _ _ _ => None)
    sample_content_type
    (fun _ => Ok [Byte.x61; Byte.x62; Byte.x63])
    (fun _ => None)
    (fun _ => Some 3)
    (fun _ => None)
    (fun _ _ => None)
    (fun _ _ => None)
    (fun _ => Ok (sample_response 201 "201 Created" []))
    (fun _ _ => Ok (mkHead (Some stored)))
    (fun _ => Ok (mkListOut [] None))
    (fun _ => None)
    (fun _ _ _ => None)
    (fun _ _ => None)
    (fun _ _ _ => Ok "https://signed")
    (fun _ _ _ => Ok "https://signed").

Definition run {A} (m : M A) (w : world) : list event * outcome A := m w.

(** A backend holding [n] objects that honours [MaxKeys]. *)
Definition listing_world (n : nat) : world :=
  let w := sample_world 0 in
  mkWorld (w_load_config w) (w_content_type w) (w_read_file w) (w_open w)
    (w_stat w) (w_create w) (w_copy w) (w_new_request w) (w_http w)
    (w_s3_head w)
    (fun i => Ok (mkListOut
                    (List.repeat (Some "k") (Z.to_nat (Z.min (Z.of_nat n) (list_max_keys i))))
                    None))
    (w_s3_put w) (w_s3_get w) (w_s3_delete w) (w_presign_get w) (w_presign_put w).

(** A world whose files hold [file], whose [Stat] reports [n] bytes, and
    whose HTTP calls answer [200] with content type [ct] and
    content-length [n]. *)
Definition origin_world (ct : string) (n : Z) (file : bytes) : world :=
  let w := sample_world n in
  mkWorld (w_load_config w) (w_content_type w) (fun _ => Ok file) (w_open w)
    (fun _ => Some n) (w_create w) (w_copy w) (w_new_request w)
    (fun _ => Ok (mkResponse 200 "200 OK" [("Content-Type", ct)] n file))
    (w_s3_head w) (w_s3_list w) (w_s3_put w) (w_s3_get w) (w_s3_delete w)
    (w_presign_get w) (w_presign_put w).

Definition abc : bytes := [Byte.x61; Byte.x62; Byte.x63].

Definition r2_storage : StorageGo.Storage :=
  StorageGo.mkStorage (mkConfig "https://acc.r2.cloudflarestorage.com" "auto" "id" "secret") true.

Definition r2_storage_v2 : Part000.Storage :=
  Part000.mkStorage (mkConfig "https://acc.r2.cloudflarestorage.com" "auto" "id" "secret").

Definition bunny_storage : StorageGo.Storage :=
  StorageGo.mkStorage (mkConfig "https://sg.storage.bunnycdn.com" "auto" "id" "secret") false.


(** A request of the bunnycdn path: [method] on [{endpoint}/{bucket}/{key}]
    whose headers are the [AccessKey] header carrying the secret key,
    followed by [extra]. *)
Definition cdn_request (s : StorageGo.Storage) (bucket key method : string)
    (extra : list (string * string)) (r : http_request) : Prop :=
  req_method r = method /\ req_url r = StorageGo.cdn_url s bucket key /\
  req_headers r = ("AccessKey", SecretAccessKey (StorageGo.config s)) :: extra.

(** Two handles that differ at most in the access key ID. *)
Definition same_but_access_key (s s' : StorageGo.Storage) : Prop :=
  Endpoint (StorageGo.config s') = Endpoint (StorageGo.config s) /\
  Region (StorageGo.config s') = Region (StorageGo.config s) /\
  SecretAccessKey (StorageGo.config s') = SecretAccessKey (StorageGo.config s) /\
  StorageGo.has_client s' = StorageGo.has_client s.

(** The outcome the verification step yields for a source of [size]
    bytes, given the answer of the HEAD call. *)
Definition verification_outcome (size : Z) (head : outcome head_output) : outcome unit :=
  match head with
  | Ok h =>
      match head_content_length h with
      | Some n => if Z.eqb size n then Ok tt else Err "upload failed"
      | None => Panic
      end
  | Err e => Err e
  | Panic => Panic
  end.


(** The tail shared by both [List]s: one ListObjectsV2 call. *)
Definition list_tail (i : list_input) : M (list string * string) :=
  output <- call (EvS3List i) (fun w => w_s3_list w i) ;;
  ret (List.map StorageGo.ToString (out_contents output),
       StorageGo.ToString (out_next_token output)).

Definition cdn_put_request (s : StorageGo.Storage) (bucket key ct : string) (file : bytes)
  : http_request :=
  mkRequest "PUT" (StorageGo.cdn_url s bucket key)
    [("AccessKey", SecretAccessKey (StorageGo.config s)); ("Content-Type", ct)]
    (BodyBytes file).

Definition cdn_plain_request (s : StorageGo.Storage) (meth bucket key : string)
  : http_request :=
  mkRequest meth (StorageGo.cdn_url s bucket key)
    [("AccessKey", SecretAccessKey (StorageGo.config s))] NoBody.

(** [w] with the answers of the file, HTTP and upload collaborators
    replaced by constant ones. *)
Definition tweak_world (w : world) (read : outcome bytes) (open_ : option string)
    (stat : option Z) (create : option string) (newreq : option string)
    (http : outcome http_response) (put : option string) (head : outcome head_output)
  : world :=
  mkWorld (w_load_config w) (w_content_type w) (fun _ => read) (fun _ => open_)
    (fun _ => stat) (fun _ => create) (w_copy w) (fun _ _ => newreq) (fun _ => http)
    (fun _ _ => head) (w_s3_list w) (fun _ => put) (w_s3_get w) (w_s3_delete w)
    (w_presign_get w) (w_presign_put w).

(** Every file, HTTP and store call fails; a HEAD answers without a size. *)
Definition broken_world : world :=
  tweak_world (sample_world 3) (Err "missing") (Some "missing") None (Some "denied")
    (Some "bad url") (Err "timeout") (Some "denied") (Ok (mkHead None)).

Definition stat_broken_world : world :=
  tweak_world (sample_world 3) (Ok abc) None None None None
    (Ok (sample_response 201 "201 Created" [])) None (Ok (mkHead (Some 3))).

Definition http_broken_world : world :=
  tweak_world (sample_world 3) (Ok abc) None (Some 3) None None
    (Err "timeout") None (Ok (mkHead (Some 3))).

Definition put_broken_world : world :=
  tweak_world (sample_world 3) (Ok abc) None (Some 3) None None
    (Ok (sample_response 201 "201 Created" [])) (Some "denied") (Ok (mkHead (Some 3))).

Definition head_broken_world : world :=
  tweak_world (sample_world 3) (Ok abc) None (Some 3) None None
    (Ok (sample_response 201 "201 Created" [])) None (Ok (mkHead None)).

Definition url_broken_world : world :=
  tweak_world (sample_world 3) (Ok abc) None (Some 3) None (Some "bad url")
    (Ok (sample_response 201 "201 Created" [])) None (Ok (mkHead (Some 3))).

(** HTTP calls answer [code] with the body ["abc"]; [os.Create] answers [create]. *)
Definition status_world (code : Z) (create : option string) : world :=
  tweak_world (sample_world 3) (Ok abc) None (Some 3) create None
    (Ok (mkResponse code (string_of_Z code) [] 3 abc)) None (Ok (mkHead (Some 3))).

(** A backend whose listing holds a nil key, ["a"] and a nil continuation token. *)
Definition nil_key_world : world :=
  let w := sample_world 0 in
  mkWorld (w_load_config w) (w_content_type w) (w_read_file w) (w_open w)
    (w_stat w) (w_create w) (w_copy w) (w_new_request w) (w_http w)
    (w_s3_head w) (fun _ => Ok (mkListOut [None; Some "a"] None))
    (w_s3_put w) (w_s3_get w) (w_s3_delete w) (w_presign_get w) (w_presign_put w).

Definition b2_config : Config := mkConfig "s3.us-west-004.backblazeb2.com" "eu" "id" "secret".
Definition mixed_config : Config :=
  mkConfig "bunnycdn.acc.r2.cloudflarestorage.com" "" "id" "secret".

(* ================================================================== *)
(** * Properties *)

(* ------------------------------------------------------------------ *)
(** ** Lemmas on the string functions *)

Lemma prefix_app (p s : string) : String.prefix p (p ++ s) = true.
Proof.
  induction p as [|c p IH]; simpl; [destruct s; reflexivity|].
  destruct (ascii_dec c c); [exact IH | congruence].
Qed.

Lemma prefix_nil (s : string) : String.prefix "" s = true.
Proof. destruct s; reflexivity. Qed.

Lemma prefix_dot (c : ascii) (s : string) :
  String.prefix "." (String c s) = if ascii_dec "." c then true else false.
Proof.
  change (String.prefix (String "." EmptyString) (String c s))
    with (match ascii_dec "." c with
          | left _ => String.prefix EmptyString s
          | right _ => false
          end).
  destruct (ascii_dec "." c); [apply prefix_nil | reflexivity].
Qed.

Lemma Contains_cons (c : ascii) (s sub : string) :
  Contains (String c s) sub = String.prefix sub (String c s) || Contains s sub.
Proof. reflexivity. Qed.

Lemma Contains_app_r (a b sub : string) :
  Contains b sub = true -> Contains (a ++ b) sub = true.
Proof.
  intros H. induction a as [|c a IH]; [exact H|].
  cbn [String.append]. rewrite Contains_cons, IH. apply orb_true_r.
Qed.

(** [Contains] and [String.index] agree on absence. *)
Lemma index_none (s sub : string) :
  Contains s sub = false -> String.index 0 sub s = None.
Proof.
  induction s as [|c s IH]; intros H.
  - destruct sub; [discriminate | reflexivity].
  - rewrite Contains_cons in H. apply orb_false_iff in H as [Hp Hs].
    cbn [String.index]. rewrite Hp, (IH Hs). reflexivity.
Qed.

Lemma Contains_dot_cons (c : ascii) (s : string) :
  Contains (String c s) "." = false -> c <> "."%char /\ Contains s "." = false.
Proof.
  rewrite Contains_cons, prefix_dot.
  destruct (ascii_dec "." c) as [E|E]; simpl; [discriminate|].
  intros H. split; [congruence | exact H].
Qed.

Lemma index_dot_app (a b : string) :
  Contains a "." = false ->
  String.index 0 "." (a ++ String "." b) = Some (String.length a).
Proof.
  induction a as [|c a IH]; intros H.
  { cbn [String.index String.append]. rewrite prefix_dot.
    destruct (ascii_dec "." "."); [reflexivity | congruence]. }
  apply Contains_dot_cons in H as [Hc Ha].
  cbn [String.index String.append String.length].
  rewrite prefix_dot. destruct (ascii_dec "." c) as [E|E]; [congruence|].
  rewrite (IH Ha). reflexivity.
Qed.

Lemma substring_len_app (a x : string) :
  String.substring 0 (String.length a) (a ++ x) = a.
Proof. induction a as [|c a IH]; simpl; [destruct x; reflexivity | now rewrite IH]. Qed.

Lemma substring_all (b : string) (k : nat) :
  (String.length b <= k)%nat -> String.substring 0 k b = b.
Proof.
  revert k. induction b as [|c b IH]; intros k Hk.
  - destruct k; reflexivity.
  - destruct k as [|k]; simpl in Hk; [lia|].
    simpl. rewrite IH; [reflexivity | lia].
Qed.

Lemma substring_after_dot (a b : string) (k : nat) :
  String.substring (String.length a + 1) k (a ++ String "." b)
  = String.substring 0 k b.
Proof. induction a as [|c a IH]; simpl; [reflexivity | exact IH]. Qed.

Lemma length_app (a b : string) :
  String.length (a ++ b) = (String.length a + String.length b)%nat.
Proof. induction a as [|c a IH]; simpl; [reflexivity | now rewrite IH]. Qed.

Lemma Split_nodot (s : string) : Contains s "." = false -> Split s "." = [s].
Proof.
  intros H. unfold Split. simpl. rewrite (index_none _ _ H). reflexivity.
Qed.

(** The second dot-separated segment of [a.r.b], for dot-free [a] and [r]. *)
Lemma Split_second (a r b : string) :
  Contains a "." = false -> Contains r "." = false ->
  nth_error (Split (a ++ String "." (r ++ String "." b)) ".") 1 = Some r.
Proof.
  intros Ha Hr. unfold Split.
  remember (a ++ String "." (r ++ String "." b)) as s eqn:Es.
  assert (Hlen : (String.length (r ++ String "." b) <= String.length s)%nat).
  { subst s. rewrite !length_app. cbn [String.length]. rewrite !length_app. cbn [String.length]. lia. }
  assert (Hpos : (1 <= String.length s)%nat).
  { subst s. rewrite !length_app. cbn [String.length]. rewrite !length_app. cbn [String.length]. lia. }
  cbn [split_fuel]. rewrite Es at 1. rewrite (index_dot_app _ _ Ha).
  replace (String.length a + String.length ".")%nat
    with (String.length a + 1)%nat by reflexivity.
  remember (String.length s) as n eqn:En. subst s.
  rewrite substring_after_dot, (substring_all _ _ Hlen).
  destruct n as [|f]; [lia|].
  simpl. rewrite (index_dot_app _ _ Hr), substring_len_app. reflexivity.
Qed.

Lemma Contains_app_dot (a b : string) :
  Contains (a ++ b) "." = Contains a "." || Contains b ".".
Proof.
  induction a as [|c a IH]; [reflexivity|].
  cbn [String.append]. rewrite !Contains_cons, !prefix_dot, IH.
  destruct (ascii_dec "." c); reflexivity.
Qed.

(* ------------------------------------------------------------------ *)
(** ** The constructors, by cases on [prepare_config] *)

Lemma NewStorage_result (cfg : Config) (w : world) :
  snd (StorageGo.NewStorage cfg w) =
  match prepare_config StorageGo.missing_endpoint cfg with
  | Ok c =>
      if Contains (Endpoint c) "bunnycdn" then Ok (StorageGo.mkStorage c false)
      else match w_load_config w (AccessKeyID c) (SecretAccessKey c) (Region c) with
           | None => Ok (StorageGo.mkStorage c true)
           | Some e => Err e
           end
  | Err e => Err e
  | Panic => Panic
  end.
Proof.
  unfold StorageGo.NewStorage, bind, lift.
  destruct (prepare_config StorageGo.missing_endpoint cfg) as [c|e|]; try reflexivity.
  cbn. destruct (Contains (Endpoint c) "bunnycdn"); [reflexivity|].
  unfold call_err, ret. destruct (w_load_config w _ _ _); reflexivity.
Qed.

Lemma New_result (cfg : Config) (w : world) :
  snd (Part000.New cfg w) =
  match prepare_config Part000.missing_endpoint cfg with
  | Ok c =>
      match w_load_config w (AccessKeyID c) (SecretAccessKey c) (Region c) with
      | None => Ok (Part000.mkStorage c)
      | Some e => Err e
      end
  | Err e => Err e
  | Panic => Panic
  end.
Proof.
  unfold Part000.New, bind, lift.
  destruct (prepare_config Part000.missing_endpoint cfg) as [c|e|]; try reflexivity.
  cbn. unfold call_err, ret. destruct (w_load_config w _ _ _); reflexivity.
Qed.

Lemma prepare_config_endpoint (m : string) (cfg c : Config) :
  prepare_config m cfg = Ok c -> Endpoint c = normalize_endpoint (Endpoint cfg).
Proof.
  unfold prepare_config. destruct (String.eqb (Endpoint cfg) ""); [discriminate|].
  destruct region_from_endpoint; intros H; try discriminate.
  injection H as <-; reflexivity.
Qed.

Lemma NewStorage_endpoint (cfg : Config) (w : world) (s : StorageGo.Storage) :
  snd (StorageGo.NewStorage cfg w) = Ok s ->
  Endpoint (StorageGo.config s) = normalize_endpoint (Endpoint cfg).
Proof.
  rewrite NewStorage_result.
  destruct (prepare_config _ cfg) as [c|e|] eqn:E; try discriminate.
  apply prepare_config_endpoint in E.
  destruct (Contains _ _); [|destruct (w_load_config _ _ _ _)];
    intros H; try discriminate; injection H as <-; exact E.
Qed.

Lemma New_endpoint (cfg : Config) (w : world) (s : Part000.Storage) :
  snd (Part000.New cfg w) = Ok s ->
  Endpoint (Part000.config s) = normalize_endpoint (Endpoint cfg).
Proof.
  rewrite New_result.
  destruct (prepare_config _ cfg) as [c|e|] eqn:E; try discriminate.
  apply prepare_config_endpoint in E.
  destruct (w_load_config _ _ _ _); intros H; try discriminate.
  injection H as <-; exact E.
Qed.

Lemma normalize_prefixed (e : string) :
  HasPrefix e "http://" = true \/ HasPrefix e "https://" = true ->
  normalize_endpoint e = e.
Proof.
  intros [H|H]; unfold normalize_endpoint; rewrite H;
    [reflexivity | now rewrite andb_false_r].
Qed.

(* ------------------------------------------------------------------ *)
(** ** C7: endpoint normalisation *)

(** C7: an endpoint without an [http://] or [https://] prefix gets exactly
    [https://] prepended; an endpoint with one is left unchanged, so
    normalising twice is normalising once; both constructors store the
    normalised endpoint. *)
Theorem normalize_endpoint_scheme (e : string) :
  (HasPrefix e "http://" = false -> HasPrefix e "https://" = false ->
     normalize_endpoint e = "https://" ++ e) /\
  (HasPrefix e "http://" = true \/ HasPrefix e "https://" = true ->
     normalize_endpoint e = e) /\
  normalize_endpoint (normalize_endpoint e) = normalize_endpoint e /\
  (forall cfg w s, Endpoint cfg = e ->
     snd (StorageGo.NewStorage cfg w) = Ok s ->
     Endpoint (StorageGo.config s) = normalize_endpoint e) /\
  (forall cfg w s, Endpoint cfg = e ->
     snd (Part000.New cfg w) = Ok s ->
     Endpoint (Part000.config s) = normalize_endpoint e).
Proof.
  split; [|split; [|split; [|split]]].
  - intros H1 H2. unfold normalize_endpoint. rewrite H1, H2. reflexivity.
  - apply normalize_prefixed.
  - unfold normalize_endpoint at 2 3.
    destruct (HasPrefix e "http://") eqn:H1, (HasPrefix e "https://") eqn:H2;
      cbn [negb andb]; unfold normalize_endpoint;
      try (rewrite H1; reflexivity); try (rewrite H2; cbn; now rewrite andb_false_r).
    unfold HasPrefix. rewrite prefix_app. now rewrite andb_false_r.
  - intros cfg w s <-. apply NewStorage_endpoint.
  - intros cfg w s <-. apply New_endpoint.
Qed.

(* ------------------------------------------------------------------ *)
(** ** C8: provider classification *)

Section Classification.
Import StorageGo.

(** C8: [Type] is a pure function of the endpoint (it issues no call and
    reads nothing but [config.Endpoint]) and picks the first marker found
    in the order ["cloudflarestorage"] (R2), ["backblazeb2"] (Backblaze),
    ["bunnycdn"] (CDN-direct), falling back to the generic variant. *)
Theorem Type_first_match (s : Storage) :
  let ep := Endpoint (config s) in
  (Contains ep "cloudflarestorage" = true -> Type_ s = r2) /\
  (Contains ep "cloudflarestorage" = false ->
   Contains ep "backblazeb2" = true -> Type_ s = backblaze) /\
  (Contains ep "cloudflarestorage" = false ->
   Contains ep "backblazeb2" = false ->
   Contains ep "bunnycdn" = true -> Type_ s = bunnyCDN) /\
  (Contains ep "cloudflarestorage" = false ->
   Contains ep "backblazeb2" = false ->
   Contains ep "bunnycdn" = false -> Type_ s = etc) /\
  (forall s' : Storage, Endpoint (config s') = ep -> Type_ s' = Type_ s).
Proof.
  cbv zeta. unfold Type_.
  repeat split; intros; repeat match goal with H : _ = _ |- _ => rewrite H end;
    reflexivity.
Qed.

(* ------------------------------------------------------------------ *)
(** ** C2: operations the CDN-direct variant refuses *)

(** C2: on a handle classified CDN-direct, [Info], [List], [PresignGet] and
    [PresignPut] return their unsupported-operation error and issue no
    call at all (the trace is empty), whatever the collaborators. *)
Theorem cdn_direct_unsupported (s : Storage) (w : world)
    (bucket key prefix : string) (length : Z) (token : list string) (ttl : Z) :
  Type_ s = bunnyCDN ->
  Info s bucket key w = ([], Err "bunnycdn storage does not support Info operation") /\
  List_ s bucket prefix length token w
    = ([], Err "bunnycdn storage does not support List operation") /\
  PresignGet s bucket key ttl w
    = ([], Err "bunnycdn storage does not support Presign operation") /\
  PresignPut s bucket key ttl w
    = ([], Err "bunnycdn storage does not support Presign operation").
Proof.
  intros H. unfold Info, List_, PresignGet, PresignPut. rewrite H.
  repeat split.
Qed.

End Classification.

(* ------------------------------------------------------------------ *)
(** ** C3: a Backblaze endpoint without a dot *)

Lemma prepare_config_no_second_part (m : string) (cfg : Config) :
  Region cfg = "" -> Contains (Endpoint cfg) "backblazeb2" = true ->
  Contains (Endpoint cfg) "." = false -> prepare_config m cfg = Panic.
Proof.
  intros Hr Hb Hd. unfold prepare_config, region_from_endpoint.
  destruct (Endpoint cfg) as [|c e] eqn:Ee; [discriminate|].
  cbn [String.eqb]. rewrite Hr. cbn [String.eqb andb].
  assert (Hn : Contains (normalize_endpoint (String c e)) "backblazeb2" = true
               /\ Contains (normalize_endpoint (String c e)) "." = false).
  { unfold normalize_endpoint.
    destruct (negb _ && negb _); [|split; assumption].
    split; [apply Contains_app_r, Hb|].
    rewrite Contains_app_dot, Hd. reflexivity. }
  destruct Hn as [Hn1 Hn2]. rewrite Hn1, (Split_nodot _ Hn2). reflexivity.
Qed.

(** C3: when no region is supplied and the endpoint contains
    ["backblazeb2"] but no dot (for instance ["backblazeb2"]), both
    constructors panic on [parts[1]] instead of returning an error. *)
Theorem backblaze_endpoint_without_dot_panics (cfg : Config) (w : world) :
  Region cfg = "" -> Contains (Endpoint cfg) "backblazeb2" = true ->
  Contains (Endpoint cfg) "." = false ->
  snd (StorageGo.NewStorage cfg w) = Panic /\ snd (Part000.New cfg w) = Panic.
Proof.
  intros Hr Hb Hd. rewrite NewStorage_result, New_result.
  rewrite !(prepare_config_no_second_part _ _ Hr Hb Hd). split; reflexivity.
Qed.

(* ------------------------------------------------------------------ *)
(** ** C6: the region of a Backblaze endpoint *)

Lemma prepare_config_b2 (m pre r acc sk : string) :
  (pre = "http://" \/ pre = "https://") -> r <> "" -> Contains r "." = false ->
  prepare_config m (mkConfig (pre ++ "s3." ++ r ++ ".backblazeb2.com") "" acc sk)
  = Ok (mkConfig (pre ++ "s3." ++ r ++ ".backblazeb2.com") r acc sk).
Proof.
  intros Hpre Hne Hr.
  set (ep := pre ++ "s3." ++ r ++ ".backblazeb2.com").
  assert (Hn : normalize_endpoint ep = ep).
  { apply normalize_prefixed. destruct Hpre; subst pre;
      [left | right]; apply prefix_app. }
  assert (He : String.eqb ep "" = false) by (destruct Hpre; subst pre; reflexivity).
  assert (Hb : Contains ep "backblazeb2" = true).
  { unfold ep. apply Contains_app_r, Contains_app_r, Contains_app_r. reflexivity. }
  assert (Hs : nth_error (Split ep ".") 1 = Some r).
  { assert (Hep : ep = (pre ++ "s3") ++ String "." (r ++ String "." "backblazeb2.com"))
      by (destruct Hpre; subst pre; reflexivity).
    rewrite Hep. apply Split_second; [|exact Hr].
    destruct Hpre; subst pre; reflexivity. }
  unfold prepare_config, region_from_endpoint. cbn [Endpoint Region AccessKeyID SecretAccessKey].
  rewrite He, Hn, Hb, Hs. cbn [String.eqb andb].
  unfold default_region. destruct r; [contradiction | reflexivity].
Qed.

(** The three accepted shapes [s3.<r>.backblazeb2.com], [http://...] and
    [https://...] all normalise to a prefixed one. *)
Lemma prepare_config_b2_scheme (m scheme r acc sk : string) :
  In scheme [""; "http://"; "https://"] -> r <> "" -> Contains r "." = false ->
  exists pre, (pre = "http://" \/ pre = "https://") /\
    prepare_config m (mkConfig (scheme ++ "s3." ++ r ++ ".backblazeb2.com") "" acc sk)
    = Ok (mkConfig (pre ++ "s3." ++ r ++ ".backblazeb2.com") r acc sk).
Proof.
  intros Hs Hne Hr. destruct Hs as [<-|[<-|[<-|[]]]].
  - exists "https://". split; [now right|].
    rewrite <- (prepare_config_b2 m "https://" r acc sk (or_intror eq_refl) Hne Hr).
    unfold prepare_config. cbn [Endpoint Region AccessKeyID SecretAccessKey].
    change (String.eqb ("" ++ "s3." ++ r ++ ".backblazeb2.com") "") with false.
    change (String.eqb ("https://" ++ "s3." ++ r ++ ".backblazeb2.com") "") with false.
    reflexivity.
  - exists "http://". split; [now left|]. now apply prepare_config_b2; [left|..].
  - exists "https://". split; [now right|]. now apply prepare_config_b2; [right|..].
Qed.

Lemma NewStorage_config (cfg c : Config) (w : world) (s : StorageGo.Storage) :
  prepare_config StorageGo.missing_endpoint cfg = Ok c ->
  snd (StorageGo.NewStorage cfg w) = Ok s -> StorageGo.config s = c.
Proof.
  intros E. rewrite NewStorage_result, E.
  destruct (Contains _ _); [|destruct (w_load_config _ _ _ _)];
    intros H; try discriminate; injection H as <-; reflexivity.
Qed.

Lemma New_config (cfg c : Config) (w : world) (s : Part000.Storage) :
  prepare_config Part000.missing_endpoint cfg = Ok c ->
  snd (Part000.New cfg w) = Ok s -> Part000.config s = c.
Proof.
  intros E. rewrite New_result, E.
  destruct (w_load_config _ _ _ _); intros H; try discriminate.
  injection H as <-; reflexivity.
Qed.

Lemma NewStorage_not_panic (cfg c : Config) (w : world) :
  prepare_config StorageGo.missing_endpoint cfg = Ok c ->
  snd (StorageGo.NewStorage cfg w) <> Panic.
Proof.
  intros E. rewrite NewStorage_result, E.
  destruct (Contains _ _); [|destruct (w_load_config _ _ _ _)]; discriminate.
Qed.

Lemma New_not_panic (cfg c : Config) (w : world) :
  prepare_config Part000.missing_endpoint cfg = Ok c ->
  snd (Part000.New cfg w) <> Panic.
Proof.
  intros E. rewrite New_result, E. destruct (w_load_config _ _ _ _); discriminate.
Qed.

Lemma prepare_config_unset_region (m : string) (cfg c : Config) :
  region_from_endpoint (normalize_endpoint (Endpoint cfg)) (Region cfg) = Some "" ->
  prepare_config m cfg = Ok c -> Region c = "auto".
Proof.
  intros Hr. unfold prepare_config.
  destruct (String.eqb (Endpoint cfg) ""); [discriminate|].
  rewrite Hr. intros H. injection H as <-. reflexivity.
Qed.

(** C6 (as amended): for an endpoint [s3.<r>.backblazeb2.com], bare or
    behind [http://] or [https://], with no region supplied and a token
    [<r>] that is non-empty and holds no dot, both constructors do not
    panic and any handle they return has region [<r>]; and whenever the
    region is still empty after the Backblaze step ([region_from_endpoint]),
    the handle's region is ["auto"]. *)
Theorem backblaze_region_resolution :
  (forall (scheme r acc sk : string) (w : world),
     In scheme [""; "http://"; "https://"] -> r <> "" -> Contains r "." = false ->
     let cfg := mkConfig (scheme ++ "s3." ++ r ++ ".backblazeb2.com") "" acc sk in
     snd (StorageGo.NewStorage cfg w) <> Panic /\
     (forall s, snd (StorageGo.NewStorage cfg w) = Ok s ->
                Region (StorageGo.config s) = r) /\
     snd (Part000.New cfg w) <> Panic /\
     (forall s, snd (Part000.New cfg w) = Ok s -> Region (Part000.config s) = r)) /\
  (forall (cfg : Config) (w : world),
     region_from_endpoint (normalize_endpoint (Endpoint cfg)) (Region cfg) = Some "" ->
     (forall s, snd (StorageGo.NewStorage cfg w) = Ok s ->
                Region (StorageGo.config s) = "auto") /\
     (forall s, snd (Part000.New cfg w) = Ok s ->
                Region (Part000.config s) = "auto")).
Proof.
  split.
  - intros scheme r acc sk w Hs Hne Hr cfg.
    destruct (prepare_config_b2_scheme StorageGo.missing_endpoint scheme r acc sk Hs Hne Hr)
      as [pre [_ E1]].
    destruct (prepare_config_b2_scheme Part000.missing_endpoint scheme r acc sk Hs Hne Hr)
      as [pre' [_ E2]].
    split; [exact (NewStorage_not_panic _ _ w E1)|].
    split; [intros s Hs'; now rewrite (NewStorage_config _ _ _ _ E1 Hs')|].
    split; [exact (New_not_panic _ _ w E2)|].
    intros s Hs'; now rewrite (New_config _ _ _ _ E2 Hs').
  - intros cfg w Hr. split; intros s Hs.
    + destruct (prepare_config StorageGo.missing_endpoint cfg) as [c|e|] eqn:E;
        [|rewrite NewStorage_result, E in Hs; discriminate..].
      rewrite (NewStorage_config cfg c w s E Hs).
      exact (prepare_config_unset_region _ _ _ Hr E).
    + destruct (prepare_config Part000.missing_endpoint cfg) as [c|e|] eqn:E;
        [|rewrite New_result, E in Hs; discriminate..].
      rewrite (New_config cfg c w s E Hs).
      exact (prepare_config_unset_region _ _ _ Hr E).
Qed.

(** C6, as stated, fails: for [s3..backblazeb2.com] the token is empty and
    the region becomes ["auto"]; for [s3.us.west.backblazeb2.com] it is
    ["us"], not ["us.west"]. *)
Lemma backblaze_region_counterexample :
  snd (StorageGo.NewStorage (mkConfig "s3..backblazeb2.com" "" "id" "secret")
                            (sample_world 0))
  = Ok (StorageGo.mkStorage
          (mkConfig "https://s3..backblazeb2.com" "auto" "id" "secret") true) /\
  snd (StorageGo.NewStorage (mkConfig "s3.us.west.backblazeb2.com" "" "id" "secret")
                            (sample_world 0))
  = Ok (StorageGo.mkStorage
          (mkConfig "https://s3.us.west.backblazeb2.com" "us" "id" "secret") true) /\
  "auto" <> "" /\ "us" <> "us.west".
Proof. vm_compute. repeat split; discriminate. Qed.

(* ------------------------------------------------------------------ *)
(** ** C9: the max-keys value of [List] *)

(** C9: the clamp [if length > 1000] misses lengths below [-2^31]:
    [int32(-2147483649)] wraps to [2147483647], which both [List]s pass
    as [MaxKeys]; against a backend that honours it and holds 1500
    objects, one call returns 1500 keys. *)
Lemma list_max_keys_wraps (w : world) :
  is_go_int (-2147483649) /\
  fst (StorageGo.List_ r2_storage "bucket" "" (-2147483649) [] w)
    = [EvS3List (mkList "bucket" "" 2147483647 None)] /\
  fst (Part000.List_ r2_storage_v2 "bucket" "" (-2147483649) [] w)
    = [EvS3List (mkList "bucket" "" 2147483647 None)] /\
  option_map (fun r => List.length (fst r))
    (match snd (StorageGo.List_ r2_storage "bucket" "" (-2147483649) []
                  (listing_world 1500)) with Ok r => Some r | _ => None end)
    = Some 1500%nat /\
  option_map (fun r => List.length (fst r))
    (match snd (Part000.List_ r2_storage_v2 "bucket" "" (-2147483649) []
                  (listing_world 1500)) with Ok r => Some r | _ => None end)
    = Some 1500%nat.
Proof.
  split; [unfold is_go_int; lia|].
  unfold StorageGo.List_, Part000.List_, bind, call, ret.
  split; [|split]; [| |vm_compute; split; reflexivity].
  - cbn. match goal with |- context [w_s3_list w ?i] =>
      destruct (w_s3_list w i); reflexivity end.
  - cbn. match goal with |- context [w_s3_list w ?i] =>
      destruct (w_s3_list w i); reflexivity end.
Qed.

(* ------------------------------------------------------------------ *)
(** ** Running an operation *)

(** Case analysis on the collaborators' answers, one at a time. *)
Ltac answer x :=
  lazymatch x with
  | w_read_file _ _ => idtac | w_new_request _ _ _ => idtac
  | w_http _ _ => idtac | w_s3_put _ _ => idtac | w_s3_head _ _ _ => idtac
  | w_create _ _ => idtac | w_copy _ _ _ => idtac | w_s3_delete _ _ _ => idtac
  | w_s3_get _ _ _ _ => idtac | w_open _ _ => idtac | w_stat _ _ => idtac
  | head_content_length _ => idtac | Nat.eqb _ _ => idtac | Z.geb _ _ => idtac
  | Z.eqb _ _ => idtac | negb _ => idtac | String.eqb _ _ => idtac
  | HasPrefix _ _ => idtac | StorageGo.SType_eqb _ _ => idtac
  | StorageGo.has_client _ => idtac
  | ?l => is_var l
  end.

Ltac split_answers :=
  repeat (first [progress (cbn in * ) |
    match goal with
    | H : In _ (_ ++ _) |- _ => apply in_app_or in H; destruct H as [H|H]
    | H : In _ [] |- _ => destruct H
    | H : _ \/ _ |- _ => destruct H as [H|H]
    | H : False |- _ => destruct H
    | H : In _ (_ :: _) |- _ => destruct H as [H|H]
    | H : EvHttp _ = EvHttp _ |- _ => injection H as <-
    | H : _ = EvHttp _ |- _ => discriminate H
    | H : EvS3Put _ = EvS3Put _ |- _ => injection H as <-
    | H : _ = EvS3Put _ |- _ => discriminate H
    | H : context [match ?x with _ => _ end] |- _ => answer x; destruct x
    end]).

Lemma bind_ok {A B} (m : M A) (f : A -> M B) (w : world) t a :
  m w = (t, Ok a) -> bind m f w = (List.app t (fst (f a w)), snd (f a w)).
Proof. unfold bind. intros ->. destruct (f a w); reflexivity. Qed.

(* ------------------------------------------------------------------ *)
(** ** C10: the direct-HTTP requests *)

Section DirectHttp.
Import StorageGo.

Lemma Upload_cdn_requests (s : Storage) (w : world)
    (bucket path key : string) (forceType : list string) (r : http_request) :
  Type_ s = bunnyCDN ->
  In (EvHttp r) (fst (Upload s bucket path key forceType w)) ->
  exists ct, cdn_request s bucket key "PUT" [("Content-Type", ct)] r.
Proof.
  intros HT. unfold Upload, bind, call, ask, NewRequest, Do, fail, ret.
  rewrite HT. cbn [SType_eqb fst].
  intros H. split_answers.
  all: eexists; unfold cdn_request; repeat split.
Qed.
Lemma Delete_cdn_requests (s : Storage) (w : world) (bucket key : string)
    (r : http_request) :
  Type_ s = bunnyCDN ->
  In (EvHttp r) (fst (Delete s bucket key w)) ->
  cdn_request s bucket key "DELETE" [] r.
Proof.
  intros HT. unfold Delete, bind, call, Do, fail, ret.
  rewrite HT. intros H. split_answers.
  all: unfold cdn_request; repeat split.
Qed.

Lemma Download_cdn_requests (s : Storage) (w : world) (bucket key target : string)
    (r : http_request) :
  Type_ s = bunnyCDN ->
  In (EvHttp r) (fst (Download s bucket key target w)) ->
  cdn_request s bucket key "GET" [] r.
Proof.
  intros HT. unfold Download, bind, call, NewRequest, Do, fail, ret.
  rewrite HT. intros H. split_answers.
  all: unfold cdn_request; repeat split.
Qed.

(** No operation reads [config.AccessKeyID]. *)
Lemma ops_ignore_access_key (s s' : Storage) (w : world)
    (bucket path key target : string) (forceType : list string) :
  same_but_access_key s s' ->
  Upload s' bucket path key forceType w = Upload s bucket path key forceType w /\
  Download s' bucket key target w = Download s bucket key target w /\
  Delete s' bucket key w = Delete s bucket key w.
Proof.
  destruct s as [[ep rg id sec] hc], s' as [[ep' rg' id' sec'] hc'].
  unfold same_but_access_key. cbn. intros (-> & -> & -> & ->).
  repeat split.
Qed.

(** C10: on a handle classified CDN-direct, every HTTP request that
    [Upload], [Download] and [Delete] send targets
    [{endpoint}/{bucket}/{key}] and carries the secret key in the single
    [AccessKey] header (with only a [Content-Type] header beside it for
    [Upload]); the access key ID is never read, so two handles differing
    only in it issue identical calls with identical results. *)
Theorem cdn_direct_requests (s : Storage) (w : world)
    (bucket path key target : string) (forceType : list string) :
  Type_ s = bunnyCDN ->
  (forall r, In (EvHttp r) (fst (Upload s bucket path key forceType w)) ->
     exists ct, cdn_request s bucket key "PUT" [("Content-Type", ct)] r) /\
  (forall r, In (EvHttp r) (fst (Download s bucket key target w)) ->
     cdn_request s bucket key "GET" [] r) /\
  (forall r, In (EvHttp r) (fst (Delete s bucket key w)) ->
     cdn_request s bucket key "DELETE" [] r) /\
  (forall s', same_but_access_key s s' ->
     Upload s' bucket path key forceType w = Upload s bucket path key forceType w /\
     Download s' bucket key target w = Download s bucket key target w /\
     Delete s' bucket key w = Delete s bucket key w).
Proof.
  intros HT. split; [|split; [|split]].
  - intros r. exact (Upload_cdn_requests s w bucket path key forceType r HT).
  - intros r. exact (Download_cdn_requests s w bucket key target r HT).
  - intros r. exact (Delete_cdn_requests s w bucket key r HT).
  - intros s' Hs'. exact (ops_ignore_access_key s s' w bucket path key target forceType Hs').
Qed.

End DirectHttp.

(* ------------------------------------------------------------------ *)
(** ** The source of a part_000 upload *)

Section Source.
Import Part000.

Lemma origin_request_target (opt : Options) (origin : string) :
  req_method (origin_request opt origin) = "GET" /\
  req_url (origin_request opt origin) = origin.
Proof.
  unfold origin_request.
  assert (G : forall hs r, req_method r = "GET" -> req_url r = origin ->
            req_method (List.fold_left
              (fun r kv => StorageGo.set_header r (fst kv) (snd kv)) hs r) = "GET" /\
            req_url (List.fold_left
              (fun r kv => StorageGo.set_header r (fst kv) (snd kv)) hs r) = origin).
  { induction hs as [|kv hs IH]; intros r Hm Hu; [split; assumption|].
    apply IH; assumption. }
  apply G; reflexivity.
Qed.

(** A local source: [os.Open] then [Stat]. *)
Lemma resolve_source_local (w : world) (origin : string) (options : list Options) (n : Z) :
  HasPrefix origin "https://" = false -> w_open w origin = None ->
  w_stat w origin = Some n ->
  resolve_source origin options w =
  ([EvOpen origin; EvStat origin],
   Ok (let c := ContentType (first_options options) in
       if String.eqb c "" then w_content_type w origin else c, n)).
Proof.
  intros Hp Ho Hs. unfold resolve_source, bind, call, call_err, ask, ret.
  rewrite Hp, Ho, Hs. reflexivity.
Qed.

(** A remote source: the GET on [origin], answered [200]. *)
Lemma resolve_source_remote (w : world) (origin : string) (options : list Options)
    (resp : http_response) :
  HasPrefix origin "https://" = true -> w_new_request w "GET" origin = None ->
  w_http w (origin_request (first_options options) origin) = Ok resp ->
  resp_status_code resp = 200 ->
  resolve_source origin options w =
  ([EvHttp (origin_request (first_options options) origin)],
   Ok (let opt := first_options options in
       let c := if String.eqb (ContentType opt) ""
                then header_get (resp_headers resp) "Content-Type"
                else ContentType opt in
       if String.eqb c "" then w_content_type w origin else c,
       resp_content_length resp)).
Proof.
  intros Hp Hn Hh Hc. unfold resolve_source, bind, call, ask, ret, fail, StorageGo.Do.
  rewrite Hp, Hn. unfold call. cbv beta zeta iota. rewrite Hh. cbn. rewrite Hc. reflexivity.
Qed.

(** Resolving the source only opens, stats, or GETs the origin. *)
Lemma resolve_source_events (w : world) (origin : string) (options : list Options)
    (ev : event) :
  In ev (fst (resolve_source origin options w)) ->
  ev = EvOpen origin \/ ev = EvStat origin \/
  ev = EvHttp (origin_request (first_options options) origin).
Proof.
  unfold resolve_source, bind, call, call_err, ask, ret, fail, StorageGo.Do.
  intros H. split_answers; subst; auto.
Qed.

Lemma Upload_after_source (s : Storage) (w : world) (bucket key origin : string)
    (options : list Options) (t : list event) (ct : string) (size : Z) :
  resolve_source origin options w = (t, Ok (ct, size)) ->
  Upload s bucket key origin options w =
  (List.app t (fst ((if Z.eqb size 0 then fail "zero size file"
    else
      let input := mkPut bucket key (if HasPrefix origin "https://"
                                     then BodyRemote origin else BodyFile origin) ct in
      _ <- call_err (EvS3Put input) (fun w => w_s3_put w input) ;;
      result <- call (EvS3Head bucket key) (fun w => w_s3_head w bucket key) ;;
      match head_content_length result with
      | None => panic
      | Some n => if negb (Z.eqb size n) then fail "upload failed" else ret tt
      end) w)),
   snd ((if Z.eqb size 0 then fail "zero size file"
    else
      let input := mkPut bucket key (if HasPrefix origin "https://"
                                     then BodyRemote origin else BodyFile origin) ct in
      _ <- call_err (EvS3Put input) (fun w => w_s3_put w input) ;;
      result <- call (EvS3Head bucket key) (fun w => w_s3_head w bucket key) ;;
      match head_content_length result with
      | None => panic
      | Some n => if negb (Z.eqb size n) then fail "upload failed" else ret tt
      end) w)).
Proof. intros H. unfold Upload. exact (bind_ok _ _ _ _ _ H). Qed.

End Source.

(* ------------------------------------------------------------------ *)
(** ** C4: zero-byte sources *)

(** C4: whatever the provider variant, an upload whose source resolves to
    size 0 (storage.go: a local file read as empty; part_000: a local file
    whose [Stat] size is 0, or a remote source answering [200] with
    content-length 0) fails with ["zero size file"] having issued only the
    calls that read the source: no PUT, to the store or over HTTP. *)
Theorem zero_size_upload_rejected :
  (forall (s : StorageGo.Storage) w bucket path key forceType file,
     w_read_file w path = Ok file -> List.length file = 0%nat ->
     StorageGo.Upload s bucket path key forceType w
     = ([EvReadFile path], Err "zero size file")) /\
  (forall (s : Part000.Storage) w bucket key origin options,
     HasPrefix origin "https://" = false -> w_open w origin = None ->
     w_stat w origin = Some 0 ->
     Part000.Upload s bucket key origin options w
     = ([EvOpen origin; EvStat origin], Err "zero size file")) /\
  (forall (s : Part000.Storage) w bucket key origin options resp,
     HasPrefix origin "https://" = true -> w_new_request w "GET" origin = None ->
     w_http w (Part000.origin_request (Part000.first_options options) origin) = Ok resp ->
     resp_status_code resp = 200 -> resp_content_length resp = 0 ->
     Part000.Upload s bucket key origin options w
     = ([EvHttp (Part000.origin_request (Part000.first_options options) origin)],
        Err "zero size file") /\
     req_method (Part000.origin_request (Part000.first_options options) origin) = "GET") /\
  (forall (s : Part000.Storage) w bucket key origin options t ct,
     Part000.resolve_source origin options w = (t, Ok (ct, 0)) ->
     Part000.Upload s bucket key origin options w = (t, Err "zero size file") /\
     (forall ev, In ev t ->
        ev = EvOpen origin \/ ev = EvStat origin \/
        ev = EvHttp (Part000.origin_request (Part000.first_options options) origin))).
Proof.
  split; [|split; [|split]].
  - intros s w bucket path key forceType file Hr Hl.
    destruct file; [|discriminate].
    unfold StorageGo.Upload, bind, call. rewrite Hr. reflexivity.
  - intros s w bucket key origin options Hp Ho Hs.
    rewrite (Upload_after_source s w bucket key origin options _ _ _
               (resolve_source_local w origin options 0 Hp Ho Hs)).
    reflexivity.
  - intros s w bucket key origin options resp Hp Hn Hh Hc Hl.
    split; [|apply origin_request_target].
    rewrite (Upload_after_source s w bucket key origin options _ _ _
               (resolve_source_remote w origin options resp Hp Hn Hh Hc)).
    rewrite Hl. reflexivity.
  - intros s w bucket key origin options t ct H. split.
    + rewrite (Upload_after_source s w bucket key origin options _ _ _ H).
      cbn. now rewrite app_nil_r.
    + intros ev Hin. apply (resolve_source_events w origin options ev).
      rewrite H. exact Hin.
Qed.

(* ------------------------------------------------------------------ *)
(** ** C5: the content type of an upload *)

Lemma StorageGo_Upload_content_type (s : StorageGo.Storage) (w : world)
    (bucket path key : string) (forceType : list string) :
  let ct := match forceType with c :: _ => c | [] => w_content_type w path end in
  (forall i, In (EvS3Put i) (fst (StorageGo.Upload s bucket path key forceType w)) ->
     put_content_type i = ct) /\
  (forall r, In (EvHttp r) (fst (StorageGo.Upload s bucket path key forceType w)) ->
     header_get (req_headers r) "Content-Type" = ct).
Proof.
  cbv zeta. unfold StorageGo.Upload, StorageGo.need_client, bind, call, call_err,
    ask, StorageGo.NewRequest, StorageGo.Do, fail, ret, panic.
  split; intros i H; split_answers; reflexivity.
Qed.

Lemma Part000_Upload_content_type (s : Part000.Storage) (w : world)
    (bucket key origin : string) (options : list Part000.Options) t ct size i :
  Part000.resolve_source origin options w = (t, Ok (ct, size)) ->
  In (EvS3Put i) (fst (Part000.Upload s bucket key origin options w)) ->
  put_content_type i = ct.
Proof.
  intros Hs Hin. rewrite (Upload_after_source s w bucket key origin options _ _ _ Hs) in Hin.
  cbn [fst] in Hin. apply in_app_or in Hin as [Hin|Hin].
  - assert (Hin' : In (EvS3Put i) (fst (Part000.resolve_source origin options w)))
      by (rewrite Hs; exact Hin).
    apply resolve_source_events in Hin'.
    destruct Hin' as [E|[E|E]]; discriminate E.
  - unfold bind, call, call_err, fail, ret, panic in Hin. split_answers; reflexivity.
Qed.

(** C5 (as amended): a caller-supplied content type wins (storage.go: the
    first [forceType], even empty; part_000: a non-empty
    [Options.ContentType]); otherwise part_000 adopts, for a remote source,
    the response's [Content-Type] header; what is still empty is inferred
    by [utils.ContentType] from the SOURCE (the local path or the origin
    URL), not from the destination key. The PUT carries that type. *)
Theorem upload_content_type_resolution :
  (forall (s : StorageGo.Storage) w bucket path key forceType i,
     In (EvS3Put i) (fst (StorageGo.Upload s bucket path key forceType w)) ->
     put_content_type i
     = match forceType with c :: _ => c | [] => w_content_type w path end) /\
  (forall (s : StorageGo.Storage) w bucket path key forceType r,
     In (EvHttp r) (fst (StorageGo.Upload s bucket path key forceType w)) ->
     header_get (req_headers r) "Content-Type"
     = match forceType with c :: _ => c | [] => w_content_type w path end) /\
  (forall (s : Part000.Storage) w bucket key origin options n i,
     HasPrefix origin "https://" = false -> w_open w origin = None ->
     w_stat w origin = Some n ->
     In (EvS3Put i) (fst (Part000.Upload s bucket key origin options w)) ->
     put_content_type i
     = (let c := Part000.ContentType (Part000.first_options options) in
        if String.eqb c "" then w_content_type w origin else c)) /\
  (forall (s : Part000.Storage) w bucket key origin options resp i,
     HasPrefix origin "https://" = true -> w_new_request w "GET" origin = None ->
     w_http w (Part000.origin_request (Part000.first_options options) origin) = Ok resp ->
     resp_status_code resp = 200 ->
     In (EvS3Put i) (fst (Part000.Upload s bucket key origin options w)) ->
     put_content_type i
     = (let opt := Part000.first_options options in
        let c := if String.eqb (Part000.ContentType opt) ""
                 then header_get (resp_headers resp) "Content-Type"
                 else Part000.ContentType opt in
        if String.eqb c "" then w_content_type w origin else c)).
Proof.
  split; [|split; [|split]].
  - intros s w bucket path key forceType i.
    apply (StorageGo_Upload_content_type s w bucket path key forceType).
  - intros s w bucket path key forceType r.
    apply (StorageGo_Upload_content_type s w bucket path key forceType).
  - intros s w bucket key origin options n i Hp Ho Hs.
    apply (Part000_Upload_content_type s w bucket key origin options _ _ _ i
             (resolve_source_local w origin options n Hp Ho Hs)).
  - intros s w bucket key origin options resp i Hp Hn Hh Hc.
    apply (Part000_Upload_content_type s w bucket key origin options _ _ _ i
             (resolve_source_remote w origin options resp Hp Hn Hh Hc)).
Qed.

(** C5, as stated, fails: uploading the source [/tmp/a.png] to the key
    [x.txt] sends ["image/png"], while the inference applied to the key
    gives ["text/plain"]. *)
Lemma upload_content_type_counterexample :
  fst (StorageGo.Upload r2_storage "bk" "/tmp/a.png" "x.txt" [] (sample_world 3))
  = [EvReadFile "/tmp/a.png";
     EvS3Put (mkPut "bk" "x.txt" (BodyBytes [Byte.x61; Byte.x62; Byte.x63]) "image/png");
     EvS3Head "bk" "x.txt"] /\
  fst (Part000.Upload r2_storage_v2 "bk" "x.txt" "/tmp/a.png" [] (sample_world 3))
  = [EvOpen "/tmp/a.png"; EvStat "/tmp/a.png";
     EvS3Put (mkPut "bk" "x.txt" (BodyFile "/tmp/a.png") "image/png");
     EvS3Head "bk" "x.txt"] /\
  w_content_type (sample_world 3) "x.txt" = "text/plain" /\
  "image/png" <> "text/plain".
Proof. vm_compute. repeat split. discriminate. Qed.

(* ------------------------------------------------------------------ *)
(** ** C1: verification after an upload *)

Lemma verification_outcome_size (size n : Z) :
  (verification_outcome size (Ok (mkHead (Some n))) = Err "upload failed" <-> size <> n) /\
  (verification_outcome size (Ok (mkHead (Some n))) = Ok tt <-> size = n).
Proof.
  unfold verification_outcome. cbn [head_content_length].
  destruct (Z.eqb_spec size n); split; split; intros H; congruence.
Qed.

Lemma StorageGo_Upload_verified (s : StorageGo.Storage) (w : world)
    (bucket path key : string) (forceType : list string) (file : bytes) :
  StorageGo.has_client s = true -> StorageGo.Type_ s <> StorageGo.bunnyCDN ->
  w_read_file w path = Ok file -> List.length file <> 0%nat ->
  (forall i, put_bucket i = bucket -> put_key i = key -> w_s3_put w i = None) ->
  exists ct,
    StorageGo.Upload s bucket path key forceType w =
    ([EvReadFile path; EvS3Put (mkPut bucket key (BodyBytes file) ct);
      EvS3Head bucket key],
     verification_outcome (Z.of_nat (List.length file)) (w_s3_head w bucket key)).
Proof.
  intros Hc HT Hr Hl Hp.
  eexists. unfold StorageGo.Upload, StorageGo.need_client, bind, call, call_err,
    ask, fail, ret, panic.
  rewrite Hr, Hc. destruct (Nat.eqb_spec (List.length file) 0) as [E|_]; [contradiction|].
  destruct (StorageGo.SType_eqb (StorageGo.Type_ s) StorageGo.bunnyCDN) eqn:E.
  { destruct (StorageGo.Type_ s); try discriminate; contradiction. }
  cbn. rewrite Hp by reflexivity. cbn.
  unfold verification_outcome.
  destruct (w_s3_head w bucket key) as [h|e|]; [|reflexivity|reflexivity].
  cbn. destruct (head_content_length h) as [n|]; [|reflexivity].
  destruct (Z.of_nat (List.length file) =? n); reflexivity.
Qed.

Lemma Part000_Upload_verified (s : Part000.Storage) (w : world)
    (bucket key origin : string) (options : list Part000.Options) t ct size :
  Part000.resolve_source origin options w = (t, Ok (ct, size)) -> size <> 0 ->
  (forall i, put_bucket i = bucket -> put_key i = key -> w_s3_put w i = None) ->
  Part000.Upload s bucket key origin options w =
  (List.app t
     [EvS3Put (mkPut bucket key (if HasPrefix origin "https://"
                                 then BodyRemote origin else BodyFile origin) ct);
      EvS3Head bucket key],
   verification_outcome size (w_s3_head w bucket key)).
Proof.
  intros Hs Hz Hp. rewrite (Upload_after_source s w bucket key origin options _ _ _ Hs).
  destruct (Z.eqb_spec size 0) as [E|_]; [contradiction|].
  unfold bind, call, call_err, fail, ret, panic. cbn. rewrite Hp by reflexivity. cbn.
  unfold verification_outcome.
  destruct (w_s3_head w bucket key) as [h|e|]; cbn; [|reflexivity|reflexivity].
  destruct (head_content_length h) as [n|]; cbn; [|reflexivity].
  destruct (size =? n); reflexivity.
Qed.

Lemma StorageGo_Upload_cdn_unverified (s : StorageGo.Storage) (w : world)
    (bucket path key : string) (forceType : list string) :
  StorageGo.Type_ s = StorageGo.bunnyCDN ->
  (forall b k, ~ In (EvS3Head b k) (fst (StorageGo.Upload s bucket path key forceType w))) /\
  (forall file resp, w_read_file w path = Ok file -> List.length file <> 0%nat ->
     w_new_request w "PUT" (StorageGo.cdn_url s bucket key) = None ->
     (forall r, w_http w r = Ok resp) -> resp_status_code resp < 300 ->
     snd (StorageGo.Upload s bucket path key forceType w) = Ok tt).
Proof.
  intros HT. unfold StorageGo.Upload, bind, call, ask, StorageGo.NewRequest,
    StorageGo.Do, fail, ret. rewrite HT. split.
  - intros b k H. split_answers; discriminate.
  - intros file resp Hr Hl Hn Hh Hc. rewrite Hr.
    destruct (Nat.eqb_spec (List.length file) 0) as [E|_]; [contradiction|].
    cbn. rewrite Hn. cbn. rewrite Hh. cbn.
    destruct (Z.geb_spec (resp_status_code resp) 300); [lia|reflexivity].
Qed.

(** C1 (as amended): on the protocol path (every handle of part_000; in
    storage.go a handle with a protocol client not classified CDN-direct),
    once the PUT of a non-empty source succeeds, [Upload] issues a HEAD
    on the same bucket and key; a HEAD error is returned as is, and
    otherwise [Upload] fails with ["upload failed"] exactly when the stored
    size differs from the source size, and returns no error when they are
    equal. The CDN-direct path of storage.go issues no HEAD and no size
    check: a PUT answered below 300 makes the upload succeed. *)
Theorem upload_verification :
  (forall (s : StorageGo.Storage) w bucket path key forceType file,
     StorageGo.has_client s = true -> StorageGo.Type_ s <> StorageGo.bunnyCDN ->
     w_read_file w path = Ok file -> List.length file <> 0%nat ->
     (forall i, put_bucket i = bucket -> put_key i = key -> w_s3_put w i = None) ->
     (exists ct, fst (StorageGo.Upload s bucket path key forceType w)
                 = [EvReadFile path; EvS3Put (mkPut bucket key (BodyBytes file) ct);
                    EvS3Head bucket key]) /\
     snd (StorageGo.Upload s bucket path key forceType w)
     = verification_outcome (Z.of_nat (List.length file)) (w_s3_head w bucket key)) /\
  (forall (s : Part000.Storage) w bucket key origin options t ct size,
     Part000.resolve_source origin options w = (t, Ok (ct, size)) -> size <> 0 ->
     (forall i, put_bucket i = bucket -> put_key i = key -> w_s3_put w i = None) ->
     (exists body, fst (Part000.Upload s bucket key origin options w)
                   = List.app t [EvS3Put (mkPut bucket key body ct); EvS3Head bucket key]) /\
     snd (Part000.Upload s bucket key origin options w)
     = verification_outcome size (w_s3_head w bucket key)) /\
  (forall size n,
     (verification_outcome size (Ok (mkHead (Some n))) = Err "upload failed" <-> size <> n) /\
     (verification_outcome size (Ok (mkHead (Some n))) = Ok tt <-> size = n)) /\
  (forall (s : StorageGo.Storage) w bucket path key forceType,
     StorageGo.Type_ s = StorageGo.bunnyCDN ->
     (forall b k, ~ In (EvS3Head b k) (fst (StorageGo.Upload s bucket path key forceType w))) /\
     (forall file resp, w_read_file w path = Ok file -> List.length file <> 0%nat ->
        w_new_request w "PUT" (StorageGo.cdn_url s bucket key) = None ->
        (forall r, w_http w r = Ok resp) -> resp_status_code resp < 300 ->
        snd (StorageGo.Upload s bucket path key forceType w) = Ok tt)).
Proof.
  split; [|split; [|split]].
  - intros s w bucket path key forceType file Hc HT Hr Hl Hp.
    destruct (StorageGo_Upload_verified s w bucket path key forceType file Hc HT Hr Hl Hp)
      as [ct E].
    rewrite E. split; [exists ct|]; reflexivity.
  - intros s w bucket key origin options t ct size Hs Hz Hp.
    rewrite (Part000_Upload_verified s w bucket key origin options t ct size Hs Hz Hp).
    split; [eexists|]; reflexivity.
  - exact verification_outcome_size.
  - intros s w bucket path key forceType HT.
    exact (StorageGo_Upload_cdn_unverified s w bucket path key forceType HT).
Qed.

(** C1, as stated, fails: on the CDN-direct variant a 3-byte upload whose
    PUT is answered [201] succeeds with no HEAD call, although the store
    would report 7 bytes; and the mismatch error of the protocol path reads
    ["upload failed"]. *)
Lemma upload_verification_counterexample :
  StorageGo.Upload bunny_storage "bk" "/tmp/a.txt" "x.txt" [] (sample_world 7)
  = ([EvReadFile "/tmp/a.txt";
      EvHttp (mkRequest "PUT" "https://sg.storage.bunnycdn.com/bk/x.txt"
                [("AccessKey", "secret"); ("Content-Type", "text/plain")]
                (BodyBytes [Byte.x61; Byte.x62; Byte.x63]))],
     Ok tt) /\
  w_s3_head (sample_world 7) "bk" "x.txt" = Ok (mkHead (Some 7)) /\
  snd (StorageGo.Upload r2_storage "bk" "/tmp/a.txt" "x.txt" [] (sample_world 7))
  = Err "upload failed".
Proof. vm_compute. repeat split. Qed.

(* ------------------------------------------------------------------ *)
(** ** Further properties of the two implementations *)

Lemma SType_eqb_false (a b : StorageGo.SType) : a <> b -> StorageGo.SType_eqb a b = false.
Proof. destruct a, b; cbn; congruence. Qed.

Lemma prepare_config_explicit (m : string) (cfg : Config) :
  Endpoint cfg <> "" -> Region cfg <> "" ->
  prepare_config m cfg
  = Ok (mkConfig (normalize_endpoint (Endpoint cfg)) (Region cfg)
                 (AccessKeyID cfg) (SecretAccessKey cfg)).
Proof.
  intros He Hr. unfold prepare_config, region_from_endpoint, default_region.
  apply String.eqb_neq in He, Hr. rewrite He, Hr. cbn [andb]. rewrite Hr. reflexivity.
Qed.

(** An empty endpoint is refused by both constructors with their missing-endpoint error, before any call. *)
Theorem constructors_missing_endpoint (cfg : Config) (w : world) :
  Endpoint cfg = "" ->
  StorageGo.NewStorage cfg w = ([], Err StorageGo.missing_endpoint) /\
  Part000.New cfg w = ([], Err Part000.missing_endpoint).
Proof.
  intros H. unfold StorageGo.NewStorage, Part000.New, bind, lift, prepare_config.
  rewrite H. split; reflexivity.
Qed.

(** A non-empty region supplied by the caller is kept as is, even for a Backblaze endpoint; neither constructor panics, and the handle holds the normalised endpoint and the caller's keys. *)
Theorem explicit_region_kept (cfg : Config) (w : world) :
  Endpoint cfg <> "" -> Region cfg <> "" ->
  let c := mkConfig (normalize_endpoint (Endpoint cfg)) (Region cfg)
                    (AccessKeyID cfg) (SecretAccessKey cfg) in
  snd (StorageGo.NewStorage cfg w) <> Panic /\
  (forall s, snd (StorageGo.NewStorage cfg w) = Ok s -> StorageGo.config s = c) /\
  snd (Part000.New cfg w) <> Panic /\
  (forall s, snd (Part000.New cfg w) = Ok s -> Part000.config s = c).
Proof.
  intros He Hr c.
  pose proof (prepare_config_explicit StorageGo.missing_endpoint cfg He Hr) as E1.
  pose proof (prepare_config_explicit Part000.missing_endpoint cfg He Hr) as E2.
  split; [exact (NewStorage_not_panic _ _ w E1)|].
  split; [intros s; exact (NewStorage_config _ _ w s E1)|].
  split; [exact (New_not_panic _ _ w E2)|].
  intros s; exact (New_config _ _ w s E2).
Qed.

Lemma prepare_config_message (m m' : string) (cfg c : Config) :
  prepare_config m cfg = Ok c -> prepare_config m' cfg = Ok c.
Proof.
  unfold prepare_config. destruct (String.eqb (Endpoint cfg) ""); [discriminate|].
  exact (fun H => H).
Qed.

(** storage.go loads no AWS configuration for an endpoint containing ["bunnycdn"] and returns a handle without a client; otherwise, like part_000 for every endpoint, it makes one [LoadDefaultConfig] call with the access key, the secret and the resolved region, and returns its error. *)
Theorem constructors_load_config (cfg c : Config) (w : world) :
  prepare_config StorageGo.missing_endpoint cfg = Ok c ->
  let load := EvLoadConfig (AccessKeyID c) (SecretAccessKey c) (Region c) in
  let answer := w_load_config w (AccessKeyID c) (SecretAccessKey c) (Region c) in
  (Contains (Endpoint c) "bunnycdn" = true ->
     StorageGo.NewStorage cfg w = ([], Ok (StorageGo.mkStorage c false))) /\
  (Contains (Endpoint c) "bunnycdn" = false ->
     StorageGo.NewStorage cfg w
     = ([load], match answer with
                | None => Ok (StorageGo.mkStorage c true)
                | Some e => Err e
                end)) /\
  Part000.New cfg w
  = ([load], match answer with
             | None => Ok (Part000.mkStorage c)
             | Some e => Err e
             end).
Proof.
  intros E load answer.
  pose proof (prepare_config_message _ Part000.missing_endpoint _ _ E) as E'.
  unfold StorageGo.NewStorage, Part000.New, bind, lift, call_err, ret.
  rewrite E, E'. cbn.
  split; [intros H; rewrite H; reflexivity|].
  split; [intros H; rewrite H; cbn|]; unfold answer; destruct (w_load_config _ _ _ _); reflexivity.
Qed.

(** A handle returned by [NewStorage] has no protocol client exactly when its endpoint contains ["bunnycdn"]; in particular a handle classified CDN-direct has none. *)
Theorem NewStorage_client_iff (cfg : Config) (w : world) (s : StorageGo.Storage) :
  snd (StorageGo.NewStorage cfg w) = Ok s ->
  (StorageGo.has_client s = false <->
   Contains (Endpoint (StorageGo.config s)) "bunnycdn" = true) /\
  (StorageGo.Type_ s = StorageGo.bunnyCDN -> StorageGo.has_client s = false).
Proof.
  intros H.
  assert (G : StorageGo.has_client s = false <->
              Contains (Endpoint (StorageGo.config s)) "bunnycdn" = true).
  { revert H. rewrite NewStorage_result.
    destruct (prepare_config _ cfg) as [c|e|]; try discriminate.
    destruct (Contains (Endpoint c) "bunnycdn") eqn:Hc.
    - intros H. injection H as <-. cbn. rewrite Hc. split; reflexivity.
    - destruct (w_load_config _ _ _ _); intros H; [discriminate|].
      injection H as <-. cbn. rewrite Hc. split; intros X; discriminate X. }
  split; [exact G|].
  intros HT. apply G. revert HT. unfold StorageGo.Type_.
  destruct (Contains (Endpoint (StorageGo.config s)) "cloudflarestorage"),
    (Contains (Endpoint (StorageGo.config s)) "backblazeb2"),
    (Contains (Endpoint (StorageGo.config s)) "bunnycdn"); try discriminate; reflexivity.
Qed.

(** An endpoint containing ["bunnycdn"] together with an earlier marker (for example ["cloudflarestorage"]) yields a handle with no client that is not classified CDN-direct: [Info], [List], [Delete], [PresignGet] and [PresignPut] then panic, [Upload] panics after reading the file and [Download] after creating the target. *)
Theorem clientless_handle_panics (cfg : Config) (w w' : world) (s : StorageGo.Storage)
    (bucket key prefix path target : string) (length ttl : Z)
    (token forceType : list string) (file : bytes) :
  snd (StorageGo.NewStorage cfg w) = Ok s ->
  Contains (Endpoint (StorageGo.config s)) "bunnycdn" = true ->
  StorageGo.Type_ s <> StorageGo.bunnyCDN ->
  StorageGo.Info s bucket key w' = ([], Panic) /\
  StorageGo.List_ s bucket prefix length token w' = ([], Panic) /\
  StorageGo.Delete s bucket key w' = ([], Panic) /\
  StorageGo.PresignGet s bucket key ttl w' = ([], Panic) /\
  StorageGo.PresignPut s bucket key ttl w' = ([], Panic) /\
  (w_read_file w' path = Ok file -> List.length file <> 0%nat ->
   StorageGo.Upload s bucket path key forceType w' = ([EvReadFile path], Panic)) /\
  (w_create w' target = None ->
   StorageGo.Download s bucket key target w' = ([EvCreate target], Panic)).
Proof.
  intros Hs Hb HT.
  assert (Hc : StorageGo.has_client s = false)
    by (apply (proj1 (NewStorage_client_iff cfg w s Hs)); exact Hb).
  pose proof (SType_eqb_false _ _ HT) as Ht.
  unfold StorageGo.Info, StorageGo.List_, StorageGo.Delete, StorageGo.PresignGet,
    StorageGo.PresignPut, StorageGo.Upload, StorageGo.Download, StorageGo.need_client,
    bind, call, ask, panic, ret, fail.
  rewrite Ht, Hc.
  repeat split.
  - intros Hr Hl. rewrite Hr. apply Nat.eqb_neq in Hl. rewrite Hl. reflexivity.
  - intros Hcr. rewrite Hcr. reflexivity.
Qed.

Lemma int32_of_int_small (x : Z) : - 2 ^ 31 <= x < 2 ^ 31 -> int32_of_int x = x.
Proof.
  intros H. unfold int32_of_int.
  destruct (Z_le_gt_dec 0 x).
  - rewrite Z.mod_small by lia.
    destruct (Z.geb_spec x (2 ^ 31)); lia.
  - assert (E : x mod 2 ^ 32 = x + 2 ^ 32).
    { rewrite <- (Z.mod_small (x + 2 ^ 32) (2 ^ 32)) by lia.
      rewrite <- Z.add_mod_idemp_r by lia. rewrite Z_mod_same_full, Z.add_0_r. reflexivity. }
    rewrite E. destruct (Z.geb_spec (x + 2 ^ 32) (2 ^ 31)); lia.
Qed.

Lemma clamp_max_keys (length : Z) :
  - 2 ^ 31 <= length ->
  int32_of_int (if length >? 1000 then 1000 else length) = Z.min length 1000.
Proof.
  intros H. destruct (Z.gtb_spec length 1000).
  - rewrite Z.min_r by lia. apply int32_of_int_small. lia.
  - rewrite Z.min_l by lia. apply int32_of_int_small. lia.
Qed.

Lemma StorageGo_List_tail (s : StorageGo.Storage) (w : world) bucket prefix length token :
  StorageGo.has_client s = true -> StorageGo.Type_ s <> StorageGo.bunnyCDN ->
  StorageGo.List_ s bucket prefix length token w
  = list_tail (mkList bucket prefix (int32_of_int (if length >? 1000 then 1000 else length))
                      (hd_error token)) w.
Proof.
  intros Hc HT. unfold StorageGo.List_, StorageGo.need_client.
  rewrite (SType_eqb_false _ _ HT), Hc.
  unfold list_tail, bind, ret at 1. cbn [List.app].
  destruct token; cbn [hd_error];
    destruct (call _ _ w) as [t r]; destruct r; try reflexivity;
    destruct (ret _ w); reflexivity.
Qed.

Lemma Part000_List_tail (s : Part000.Storage) (w : world) bucket prefix length token :
  Part000.List_ s bucket prefix length token w
  = list_tail (mkList bucket prefix (int32_of_int (if length >? 1000 then 1000 else length))
                      (hd_error token)) w.
Proof. unfold Part000.List_, list_tail. destruct token; reflexivity. Qed.

Lemma list_tail_trace (i : list_input) (w : world) : fst (list_tail i w) = [EvS3List i].
Proof. unfold list_tail, bind, call, ret. cbn. destruct (w_s3_list w i); reflexivity. Qed.

(** For a length of at least [-2^31], both [List]s make exactly one ListObjectsV2 call, with [MaxKeys = min(length, 1000)] and only the first continuation token. *)
Theorem List_request (s : StorageGo.Storage) (s' : Part000.Storage) (w : world)
    (bucket prefix : string) (length : Z) (token : list string) :
  StorageGo.has_client s = true -> StorageGo.Type_ s <> StorageGo.bunnyCDN ->
  - 2 ^ 31 <= length ->
  let i := mkList bucket prefix (Z.min length 1000) (hd_error token) in
  fst (StorageGo.List_ s bucket prefix length token w) = [EvS3List i] /\
  fst (Part000.List_ s' bucket prefix length token w) = [EvS3List i].
Proof.
  intros Hc HT Hl i.
  rewrite (StorageGo_List_tail s w bucket prefix length token Hc HT),
    Part000_List_tail, (clamp_max_keys length Hl).
  split; apply list_tail_trace.
Qed.

Lemma list_tail_result (i : list_input) (w : world) :
  snd (list_tail i w)
  = match w_s3_list w i with
    | Ok out => Ok (List.map StorageGo.ToString (out_contents out),
                    StorageGo.ToString (out_next_token out))
    | Err e => Err e
    | Panic => Panic
    end.
Proof. unfold list_tail, bind, call, ret. cbn. destruct (w_s3_list w i); reflexivity. Qed.

Lemma list_keys_props (out : list_output) :
  let keys := List.map StorageGo.ToString (out_contents out) in
  let next := StorageGo.ToString (out_next_token out) in
  List.length keys = List.length (out_contents out) /\
  (forall n k, nth_error (out_contents out) n = Some (Some k) -> nth_error keys n = Some k) /\
  (forall n, nth_error (out_contents out) n = Some None -> nth_error keys n = Some "") /\
  (next = "" <-> out_next_token out = None \/ out_next_token out = Some "").
Proof.
  cbv zeta. split; [apply length_map|].
  split; [intros n k H; rewrite nth_error_map, H; reflexivity|].
  split; [intros n H; rewrite nth_error_map, H; reflexivity|].
  destruct (out_next_token out) as [t|]; cbn; split.
  - intros ->. right. reflexivity.
  - intros [H|H]; [discriminate|]. injection H as ->. reflexivity.
  - intros _. left. reflexivity.
  - intros _. reflexivity.
Qed.

(** Both [List]s return one key per listed object, in order, a nil key as [""], and a nil continuation token as [""]; a listing error is returned as is. *)
Theorem List_keys (s : StorageGo.Storage) (s' : Part000.Storage) (w : world)
    (bucket prefix : string) (length : Z) (token : list string) :
  StorageGo.has_client s = true -> StorageGo.Type_ s <> StorageGo.bunnyCDN ->
  (forall out, (forall i, w_s3_list w i = Ok out) ->
     exists keys next,
       snd (StorageGo.List_ s bucket prefix length token w) = Ok (keys, next) /\
       snd (Part000.List_ s' bucket prefix length token w) = Ok (keys, next) /\
       List.length keys = List.length (out_contents out) /\
       (forall n k, nth_error (out_contents out) n = Some (Some k) ->
                    nth_error keys n = Some k) /\
       (forall n, nth_error (out_contents out) n = Some None -> nth_error keys n = Some "") /\
       (next = "" <-> out_next_token out = None \/ out_next_token out = Some "")) /\
  (forall e, (forall i, w_s3_list w i = Err e) ->
     snd (StorageGo.List_ s bucket prefix length token w) = Err e /\
     snd (Part000.List_ s' bucket prefix length token w) = Err e).
Proof.
  intros Hc HT.
  rewrite (StorageGo_List_tail s w bucket prefix length token Hc HT), Part000_List_tail,
    !list_tail_result.
  split.
  - intros out Ho. rewrite Ho.
    do 2 eexists. split; [reflexivity|]. split; [reflexivity|].
    apply list_keys_props.
  - intros e He. rewrite He. split; reflexivity.
Qed.

(** A local source that cannot be read fails the upload before any upload call: storage.go returns the [ReadFile] error, part_000 the [Open] error, and part_000 panics when [Stat] fails. *)
Theorem upload_local_source_errors :
  (forall (s : StorageGo.Storage) w bucket path key forceType e,
     w_read_file w path = Err e ->
     StorageGo.Upload s bucket path key forceType w = ([EvReadFile path], Err e)) /\
  (forall (s : Part000.Storage) w bucket key origin options e,
     HasPrefix origin "https://" = false -> w_open w origin = Some e ->
     Part000.Upload s bucket key origin options w = ([EvOpen origin], Err e)) /\
  (forall (s : Part000.Storage) w bucket key origin options,
     HasPrefix origin "https://" = false -> w_open w origin = None ->
     w_stat w origin = None ->
     Part000.Upload s bucket key origin options w = ([EvOpen origin; EvStat origin], Panic)).
Proof.
  split; [|split].
  - intros s w bucket path key forceType e Hr.
    unfold StorageGo.Upload, bind, call. rewrite Hr. reflexivity.
  - intros s w bucket key origin options e Hp Ho.
    unfold Part000.Upload, Part000.resolve_source, bind, call_err.
    rewrite Hp. cbv beta iota. rewrite Ho. reflexivity.
  - intros s w bucket key origin options Hp Ho Hs.
    unfold Part000.Upload, Part000.resolve_source, bind, call, call_err.
    rewrite Hp. cbv beta iota. rewrite Ho, Hs. reflexivity.
Qed.

(** For a remote source in part_000: an origin URL refused by [http.NewRequest] makes [Upload] panic without a call; a transport error is returned after the GET; a status other than 200 fails with [origin download failed: <status>], before any upload call. *)
Theorem upload_remote_source_errors :
  (forall (s : Part000.Storage) w bucket key origin options e,
     HasPrefix origin "https://" = true -> w_new_request w "GET" origin = Some e ->
     Part000.Upload s bucket key origin options w = ([], Panic)) /\
  (forall (s : Part000.Storage) w bucket key origin options e,
     HasPrefix origin "https://" = true -> w_new_request w "GET" origin = None ->
     w_http w (Part000.origin_request (Part000.first_options options) origin) = Err e ->
     Part000.Upload s bucket key origin options w
     = ([EvHttp (Part000.origin_request (Part000.first_options options) origin)], Err e)) /\
  (forall (s : Part000.Storage) w bucket key origin options resp,
     HasPrefix origin "https://" = true -> w_new_request w "GET" origin = None ->
     w_http w (Part000.origin_request (Part000.first_options options) origin) = Ok resp ->
     resp_status_code resp <> 200 ->
     Part000.Upload s bucket key origin options w
     = ([EvHttp (Part000.origin_request (Part000.first_options options) origin)],
        Err ("origin download failed: " ++ resp_status resp))).
Proof.
  split; [|split].
  - intros s w bucket key origin options e Hp Hn.
    unfold Part000.Upload, Part000.resolve_source, bind.
    rewrite Hp, Hn. reflexivity.
  - intros s w bucket key origin options e Hp Hn Hh.
    unfold Part000.Upload, Part000.resolve_source, bind, StorageGo.Do, call.
    rewrite Hp, Hn. cbv beta zeta iota. rewrite Hh. reflexivity.
  - intros s w bucket key origin options resp Hp Hn Hh Hc.
    unfold Part000.Upload, Part000.resolve_source, bind, StorageGo.Do, call, fail.
    rewrite Hp, Hn. cbv beta zeta iota. rewrite Hh.
    apply Z.eqb_neq in Hc. cbn. rewrite Hc. reflexivity.
Qed.

(** On the protocol path of both implementations, a failed PUT returns its error and issues no HEAD; a HEAD whose answer carries no content length makes [Upload] panic. *)
Theorem upload_put_and_head_failures :
  (forall (s : StorageGo.Storage) w bucket path key forceType file e,
     StorageGo.has_client s = true -> StorageGo.Type_ s <> StorageGo.bunnyCDN ->
     w_read_file w path = Ok file -> List.length file <> 0%nat ->
     (forall i, w_s3_put w i = Some e) ->
     StorageGo.Upload s bucket path key forceType w
     = ([EvReadFile path;
         EvS3Put (mkPut bucket key (BodyBytes file)
                    (match forceType with c :: _ => c | [] => w_content_type w path end))],
        Err e)) /\
  (forall (s : StorageGo.Storage) w bucket path key forceType file,
     StorageGo.has_client s = true -> StorageGo.Type_ s <> StorageGo.bunnyCDN ->
     w_read_file w path = Ok file -> List.length file <> 0%nat ->
     (forall i, w_s3_put w i = None) ->
     w_s3_head w bucket key = Ok (mkHead None) ->
     snd (StorageGo.Upload s bucket path key forceType w) = Panic) /\
  (forall (s : Part000.Storage) w bucket key origin options t ct size e,
     Part000.resolve_source origin options w = (t, Ok (ct, size)) -> size <> 0 ->
     (forall i, w_s3_put w i = Some e) ->
     Part000.Upload s bucket key origin options w
     = (List.app t [EvS3Put (mkPut bucket key
                     (if HasPrefix origin "https://" then BodyRemote origin else BodyFile origin)
                     ct)],
        Err e)) /\
  (forall (s : Part000.Storage) w bucket key origin options t ct size,
     Part000.resolve_source origin options w = (t, Ok (ct, size)) -> size <> 0 ->
     (forall i, w_s3_put w i = None) ->
     w_s3_head w bucket key = Ok (mkHead None) ->
     snd (Part000.Upload s bucket key origin options w) = Panic).
Proof.
  split; [|split; [|split]].
  - intros s w bucket path key forceType file e Hc HT Hr Hl Hp.
    unfold StorageGo.Upload, StorageGo.need_client, bind, call, call_err, ask, ret.
    rewrite Hr. apply Nat.eqb_neq in Hl. rewrite Hl, (SType_eqb_false _ _ HT), Hc.
    cbn. rewrite Hp. reflexivity.
  - intros s w bucket path key forceType file Hc HT Hr Hl Hp Hh.
    unfold StorageGo.Upload, StorageGo.need_client, bind, call, call_err, ask, ret.
    rewrite Hr. apply Nat.eqb_neq in Hl. rewrite Hl, (SType_eqb_false _ _ HT), Hc.
    cbn. rewrite Hp, Hh. reflexivity.
  - intros s w bucket key origin options t ct size e Hs Hz Hp.
    rewrite (Upload_after_source s w bucket key origin options _ _ _ Hs).
    apply Z.eqb_neq in Hz. rewrite Hz. unfold bind, call_err. cbn. rewrite Hp. reflexivity.
  - intros s w bucket key origin options t ct size Hs Hz Hp Hh.
    rewrite (Upload_after_source s w bucket key origin options _ _ _ Hs).
    apply Z.eqb_neq in Hz. rewrite Hz. unfold bind, call_err, call. cbn.
    rewrite Hp, Hh. reflexivity.
Qed.

Lemma set_header_cdn (m u sk ct : string) (b : body) :
  StorageGo.set_header (StorageGo.set_header (mkRequest m u [] b) "AccessKey" sk)
    "Content-Type" ct
  = mkRequest m u [("AccessKey", sk); ("Content-Type", ct)] b.
Proof. reflexivity. Qed.

Lemma set_header_access (m u sk : string) (b : body) :
  StorageGo.set_header (mkRequest m u [] b) "AccessKey" sk = mkRequest m u [("AccessKey", sk)] b.
Proof. reflexivity. Qed.

(** On the CDN-direct path, [Upload] sends one PUT with the [AccessKey] and [Content-Type] headers; a status of 300 or more fails with [upload failed: <body>], any lower status succeeds. *)
Theorem cdn_upload_status (s : StorageGo.Storage) (w : world)
    (bucket path key : string) (forceType : list string) (file : bytes) (res : http_response) :
  StorageGo.Type_ s = StorageGo.bunnyCDN ->
  w_read_file w path = Ok file -> List.length file <> 0%nat ->
  w_new_request w "PUT" (StorageGo.cdn_url s bucket key) = None ->
  let ct := match forceType with c :: _ => c | [] => w_content_type w path end in
  let req := cdn_put_request s bucket key ct file in
  w_http w req = Ok res ->
  (300 <= resp_status_code res ->
   StorageGo.Upload s bucket path key forceType w
   = ([EvReadFile path; EvHttp req], Err ("upload failed: " ++ string_of_bytes (resp_body res)))) /\
  (resp_status_code res < 300 ->
   StorageGo.Upload s bucket path key forceType w = ([EvReadFile path; EvHttp req], Ok tt)).
Proof.
  intros HT Hr Hl Hn ct req Hh. unfold req, ct, cdn_put_request in *.
  unfold StorageGo.Upload, StorageGo.NewRequest, StorageGo.Do, bind, call, ask, ret, fail.
  rewrite Hr. apply Nat.eqb_neq in Hl. rewrite Hl, HT. cbn [StorageGo.SType_eqb].
  rewrite Hn. cbv beta iota zeta. rewrite set_header_cdn, Hh.
  split; intros Hc.
  - destruct (Z.geb_spec (resp_status_code res) 300); [reflexivity | lia].
  - destruct (Z.geb_spec (resp_status_code res) 300); [lia | reflexivity].
Qed.

(** On the CDN-direct path, [Delete] sends one DELETE with the [AccessKey] header; a status of 300 or more fails with [delete failed: <body>], any lower status succeeds. *)
Theorem cdn_delete_status (s : StorageGo.Storage) (w : world) (bucket key : string)
    (res : http_response) :
  StorageGo.Type_ s = StorageGo.bunnyCDN ->
  w_new_request w "DELETE" (StorageGo.cdn_url s bucket key) = None ->
  let req := cdn_plain_request s "DELETE" bucket key in
  w_http w req = Ok res ->
  (300 <= resp_status_code res ->
   StorageGo.Delete s bucket key w
   = ([EvHttp req], Err ("delete failed: " ++ string_of_bytes (resp_body res)))) /\
  (resp_status_code res < 300 -> StorageGo.Delete s bucket key w = ([EvHttp req], Ok tt)).
Proof.
  intros HT Hn req Hh. unfold req, cdn_plain_request in *.
  unfold StorageGo.Delete, StorageGo.Do, bind, call, ret, fail.
  rewrite HT. cbn [StorageGo.SType_eqb]. rewrite Hn. cbv beta iota zeta.
  rewrite set_header_access, Hh.
  split; intros Hc.
  - destruct (Z.geb_spec (resp_status_code res) 300); [reflexivity | lia].
  - destruct (Z.geb_spec (resp_status_code res) 300); [lia | reflexivity].
Qed.

(** On the CDN-direct path a URL refused by [http.NewRequest] makes [Delete] panic (its error is dropped), while [Download] and [Upload] return that error; none of them sends a request. *)
Theorem cdn_bad_url (s : StorageGo.Storage) (w : world) (bucket path key target : string)
    (forceType : list string) (file : bytes) :
  StorageGo.Type_ s = StorageGo.bunnyCDN ->
  (forall e, w_new_request w "DELETE" (StorageGo.cdn_url s bucket key) = Some e ->
     StorageGo.Delete s bucket key w = ([], Panic)) /\
  (forall e, w_new_request w "GET" (StorageGo.cdn_url s bucket key) = Some e ->
     StorageGo.Download s bucket key target w = ([], Err e)) /\
  (forall e, w_read_file w path = Ok file -> List.length file <> 0%nat ->
     w_new_request w "PUT" (StorageGo.cdn_url s bucket key) = Some e ->
     StorageGo.Upload s bucket path key forceType w = ([EvReadFile path], Err e)).
Proof.
  intros HT. split; [|split].
  - intros e Hn. unfold StorageGo.Delete, bind. rewrite HT. cbn [StorageGo.SType_eqb].
    rewrite Hn. reflexivity.
  - intros e Hn. unfold StorageGo.Download, StorageGo.NewRequest, bind.
    rewrite HT. cbn [StorageGo.SType_eqb]. rewrite Hn. reflexivity.
  - intros e Hr Hl Hn.
    unfold StorageGo.Upload, StorageGo.NewRequest, bind, call, ask.
    rewrite Hr. apply Nat.eqb_neq in Hl. rewrite Hl, HT. cbn [StorageGo.SType_eqb].
    rewrite Hn. reflexivity.
Qed.

(** On the CDN-direct path, [Download] sends one GET; any status other than 200 (2xx included) fails with [download failed, status: <code>] without creating the target; on 200 it creates the target and writes the response body into it. *)
Theorem cdn_download_status (s : StorageGo.Storage) (w : world) (bucket key target : string)
    (res : http_response) :
  StorageGo.Type_ s = StorageGo.bunnyCDN ->
  w_new_request w "GET" (StorageGo.cdn_url s bucket key) = None ->
  let req := cdn_plain_request s "GET" bucket key in
  w_http w req = Ok res ->
  (resp_status_code res <> 200 ->
   StorageGo.Download s bucket key target w
   = ([EvHttp req], Err ("download failed, status: " ++ string_of_Z (resp_status_code res)))) /\
  (resp_status_code res = 200 ->
   (forall e, w_create w target = Some e ->
      StorageGo.Download s bucket key target w
      = ([EvHttp req; EvCreate target], Err ("cannot create file: " ++ e))) /\
   (w_create w target = None ->
      StorageGo.Download s bucket key target w
      = ([EvHttp req; EvCreate target; EvCopy target (resp_body res)],
         match w_copy w target (resp_body res) with
         | None => Ok tt
         | Some e => Err ("failed to write file: " ++ e)
         end))).
Proof.
  intros HT Hn req Hh. unfold req, cdn_plain_request in *.
  unfold StorageGo.Download, StorageGo.NewRequest, StorageGo.Do, bind, call, ret, fail.
  rewrite HT. cbn [StorageGo.SType_eqb]. rewrite Hn. cbv beta iota zeta.
  rewrite set_header_access, Hh.
  split; [intros Hc; apply Z.eqb_neq in Hc; rewrite Hc; reflexivity|].
  intros Hc. rewrite Hc, Z.eqb_refl. cbn [negb].
  split; [intros e He; rewrite He; reflexivity|].
  intros He. rewrite He. cbn. destruct (w_copy w target (resp_body res)); reflexivity.
Qed.

(** On the protocol path of both implementations, [Download] creates the target file before the download: a creation error stops it, and otherwise the download error, if any, is returned after the file was created. *)
Theorem s3_download_creates_first :
  (forall (s : StorageGo.Storage) w bucket key target,
     StorageGo.has_client s = true -> StorageGo.Type_ s <> StorageGo.bunnyCDN ->
     (forall e, w_create w target = Some e ->
        StorageGo.Download s bucket key target w
        = ([EvCreate target], Err ("cannot create file: " ++ e))) /\
     (w_create w target = None ->
        StorageGo.Download s bucket key target w
        = ([EvCreate target; EvS3Get bucket key target],
           match w_s3_get w bucket key target with None => Ok tt | Some e => Err e end))) /\
  (forall (s : Part000.Storage) w bucket key target,
     (forall e, w_create w target = Some e ->
        Part000.Download s bucket key target w
        = ([EvCreate target], Err ("cannot create file: " ++ e))) /\
     (w_create w target = None ->
        Part000.Download s bucket key target w
        = ([EvCreate target; EvS3Get bucket key target],
           match w_s3_get w bucket key target with None => Ok tt | Some e => Err e end))).
Proof.
  split.
  - intros s w bucket key target Hc HT.
    unfold StorageGo.Download, StorageGo.need_client, bind, call, call_err, ret.
    rewrite (SType_eqb_false _ _ HT), Hc.
    split; [intros e He; rewrite He; reflexivity|].
    intros He. rewrite He. cbn. destruct (w_s3_get w bucket key target); reflexivity.
  - intros s w bucket key target.
    unfold Part000.Download, bind, call, call_err.
    split; [intros e He; rewrite He; reflexivity|].
    intros He. rewrite He. cbn. destruct (w_s3_get w bucket key target); reflexivity.
Qed.

Lemma prepare_config_nonempty (m m' : string) (cfg : Config) :
  Endpoint cfg <> "" -> prepare_config m cfg = prepare_config m' cfg.
Proof.
  intros He. unfold prepare_config. apply String.eqb_neq in He. rewrite He. reflexivity.
Qed.

(** For a non-empty endpoint whose normalised form does not contain ["bunnycdn"], [NewStorage] and [New] make the same calls and return the same configuration or the same error. *)
Theorem constructors_agree (cfg : Config) (w : world) :
  Endpoint cfg <> "" ->
  Contains (normalize_endpoint (Endpoint cfg)) "bunnycdn" = false ->
  fst (StorageGo.NewStorage cfg w) = fst (Part000.New cfg w) /\
  snd (StorageGo.NewStorage cfg w)
  = match snd (Part000.New cfg w) with
    | Ok s => Ok (StorageGo.mkStorage (Part000.config s) true)
    | Err e => Err e
    | Panic => Panic
    end.
Proof.
  intros He Hb.
  unfold StorageGo.NewStorage, Part000.New, bind, lift, call_err, ret.
  rewrite (prepare_config_nonempty StorageGo.missing_endpoint Part000.missing_endpoint cfg He).
  destruct (prepare_config Part000.missing_endpoint cfg) as [c|e|] eqn:E;
    [|split; reflexivity..].
  rewrite (prepare_config_endpoint _ _ _ E), Hb. cbn.
  destruct (w_load_config w _ _ _); split; reflexivity.
Qed.

(** On a handle with a client that is not classified CDN-direct, [Info], [List], [Delete], [Download], [PresignGet] and [PresignPut] of storage.go behave exactly as those of part_000 on the same configuration. *)
Theorem operations_agree (s : StorageGo.Storage) (w : world)
    (bucket key prefix target : string) (length ttl : Z) (token : list string) :
  StorageGo.has_client s = true -> StorageGo.Type_ s <> StorageGo.bunnyCDN ->
  let s' := Part000.mkStorage (StorageGo.config s) in
  StorageGo.Info s bucket key w = Part000.Info s' bucket key w /\
  StorageGo.List_ s bucket prefix length token w
  = Part000.List_ s' bucket prefix length token w /\
  StorageGo.Delete s bucket key w = Part000.Delete s' bucket key w /\
  StorageGo.Download s bucket key target w = Part000.Download s' bucket key target w /\
  StorageGo.PresignGet s bucket key ttl w = Part000.PresignGet s' bucket key ttl w /\
  StorageGo.PresignPut s bucket key ttl w = Part000.PresignPut s' bucket key ttl w.
Proof.
  intros Hc HT s'.
  rewrite (StorageGo_List_tail s w bucket prefix length token Hc HT), Part000_List_tail.
  unfold StorageGo.Info, StorageGo.Delete, StorageGo.Download, StorageGo.PresignGet,
    StorageGo.PresignPut, StorageGo.need_client, Part000.Info, Part000.Delete,
    Part000.Download, Part000.PresignGet, Part000.PresignPut, bind, call, call_err, ret.
  rewrite (SType_eqb_false _ _ HT), Hc.
  repeat split.
Qed.

Lemma normalize_has_scheme (e : string) :
  HasPrefix (normalize_endpoint e) "http://" = true \/
  HasPrefix (normalize_endpoint e) "https://" = true.
Proof.
  unfold normalize_endpoint.
  destruct (HasPrefix e "http://") eqn:H1, (HasPrefix e "https://") eqn:H2;
    cbn [negb andb]; auto.
  right. unfold HasPrefix. apply prefix_app.
Qed.

Lemma prepare_config_fixed (m m' : string) (cfg c : Config) :
  prepare_config m cfg = Ok c -> prepare_config m' c = Ok c.
Proof.
  intros E.
  assert (Hr : Region c <> "").
  { revert E. unfold prepare_config. destruct (String.eqb (Endpoint cfg) ""); [discriminate|].
    destruct region_from_endpoint as [r|]; intros H; [|discriminate].
    injection H as <-. cbn. unfold default_region.
    destruct (String.eqb_spec r ""); [discriminate | exact n]. }
  assert (He : HasPrefix (Endpoint c) "http://" = true \/
               HasPrefix (Endpoint c) "https://" = true).
  { rewrite (prepare_config_endpoint _ _ _ E). apply normalize_has_scheme. }
  assert (Hne : Endpoint c <> "").
  { intros H0. rewrite H0 in He. destruct He; discriminate. }
  rewrite (prepare_config_explicit m' c Hne Hr), (normalize_prefixed _ He).
  destruct c; reflexivity.
Qed.

(** Constructing a handle again from the configuration of a handle returned by a constructor does not panic and yields the same configuration. *)
Theorem reconstruct_from_config :
  (forall cfg w w' (s : StorageGo.Storage),
     snd (StorageGo.NewStorage cfg w) = Ok s ->
     snd (StorageGo.NewStorage (StorageGo.config s) w') <> Panic /\
     (forall s', snd (StorageGo.NewStorage (StorageGo.config s) w') = Ok s' ->
                 StorageGo.config s' = StorageGo.config s)) /\
  (forall cfg w w' (s : Part000.Storage),
     snd (Part000.New cfg w) = Ok s ->
     snd (Part000.New (Part000.config s) w') <> Panic /\
     (forall s', snd (Part000.New (Part000.config s) w') = Ok s' ->
                 Part000.config s' = Part000.config s)).
Proof.
  split.
  - intros cfg w w' s Hs.
    destruct (prepare_config StorageGo.missing_endpoint cfg) as [c|e|] eqn:E;
      [|rewrite NewStorage_result, E in Hs; discriminate..].
    rewrite (NewStorage_config _ _ _ _ E Hs).
    pose proof (prepare_config_fixed _ StorageGo.missing_endpoint _ _ E) as F.
    split; [exact (NewStorage_not_panic _ _ w' F)|].
    intros s'. exact (NewStorage_config _ _ w' s' F).
  - intros cfg w w' s Hs.
    destruct (prepare_config Part000.missing_endpoint cfg) as [c|e|] eqn:E;
      [|rewrite New_result, E in Hs; discriminate..].
    rewrite (New_config _ _ _ _ E Hs).
    pose proof (prepare_config_fixed _ Part000.missing_endpoint _ _ E) as F.
    split; [exact (New_not_panic _ _ w' F)|].
    intros s'. exact (New_config _ _ w' s' F).
Qed.

(* ------------------------------------------------------------------ *)
(** ** The claims at concrete inputs *)

Lemma normalize_endpoint_scheme_witness :
  normalize_endpoint "acc.r2.cloudflarestorage.com" = "https://acc.r2.cloudflarestorage.com" /\
  normalize_endpoint "http://minio.local" = "http://minio.local" /\
  Endpoint (StorageGo.config r2_storage) = normalize_endpoint "acc.r2.cloudflarestorage.com" /\
  Endpoint (Part000.config r2_storage_v2) = normalize_endpoint "acc.r2.cloudflarestorage.com".
Proof.
  destruct (normalize_endpoint_scheme "acc.r2.cloudflarestorage.com")
    as (H1 & _ & _ & H4 & H5).
  destruct (normalize_endpoint_scheme "http://minio.local") as (_ & H2 & _).
  split; [apply H1; reflexivity|].
  split; [apply H2; left; reflexivity|].
  split.
  - apply (H4 (mkConfig "acc.r2.cloudflarestorage.com" "" "id" "secret") (sample_world 0));
      reflexivity.
  - apply (H5 (mkConfig "acc.r2.cloudflarestorage.com" "" "id" "secret") (sample_world 0));
      reflexivity.
Defined.

Lemma Type_first_match_witness :
  StorageGo.Type_ r2_storage = StorageGo.r2 /\
  StorageGo.Type_ (StorageGo.mkStorage
    (mkConfig "https://s3.us-west-004.backblazeb2.com" "us-west-004" "id" "secret") true)
  = StorageGo.backblaze /\
  StorageGo.Type_ bunny_storage = StorageGo.bunnyCDN /\
  StorageGo.Type_ (StorageGo.mkStorage
    (mkConfig "https://s3.amazonaws.com" "auto" "id" "secret") true) = StorageGo.etc /\
  StorageGo.Type_ (StorageGo.mkStorage
    (mkConfig "https://acc.r2.cloudflarestorage.com" "eu" "other" "other") false)
  = StorageGo.Type_ r2_storage.
Proof.
  destruct (Type_first_match r2_storage) as (H1 & _ & _ & _ & H5).
  destruct (Type_first_match (StorageGo.mkStorage
    (mkConfig "https://s3.us-west-004.backblazeb2.com" "us-west-004" "id" "secret") true))
    as (_ & H2 & _).
  destruct (Type_first_match bunny_storage) as (_ & _ & H3 & _).
  destruct (Type_first_match (StorageGo.mkStorage
    (mkConfig "https://s3.amazonaws.com" "auto" "id" "secret") true)) as (_ & _ & _ & H4 & _).
  split; [apply H1; reflexivity|].
  split; [apply H2; reflexivity|].
  split; [apply H3; reflexivity|].
  split; [apply H4; reflexivity|].
  apply H5; reflexivity.
Defined.

Lemma cdn_direct_unsupported_witness :
  StorageGo.Type_ bunny_storage = StorageGo.bunnyCDN /\
  StorageGo.Info bunny_storage "bk" "x.txt" (sample_world 0)
  = ([], Err "bunnycdn storage does not support Info operation") /\
  StorageGo.List_ bunny_storage "bk" "" 10 [] (sample_world 0)
  = ([], Err "bunnycdn storage does not support List operation") /\
  StorageGo.PresignGet bunny_storage "bk" "x.txt" 60 (sample_world 0)
  = ([], Err "bunnycdn storage does not support Presign operation") /\
  StorageGo.PresignPut bunny_storage "bk" "x.txt" 60 (sample_world 0)
  = ([], Err "bunnycdn storage does not support Presign operation").
Proof.
  split; [reflexivity|].
  apply (cdn_direct_unsupported bunny_storage (sample_world 0) "bk" "x.txt" "" 10 [] 60).
  reflexivity.
Defined.

Lemma backblaze_endpoint_without_dot_panics_witness :
  snd (StorageGo.NewStorage (mkConfig "backblazeb2" "" "id" "secret") (sample_world 0)) = Panic /\
  snd (Part000.New (mkConfig "backblazeb2" "" "id" "secret") (sample_world 0)) = Panic.
Proof.
  apply (backblaze_endpoint_without_dot_panics (mkConfig "backblazeb2" "" "id" "secret")
           (sample_world 0)); reflexivity.
Defined.

Lemma backblaze_region_resolution_witness :
  (let cfg := mkConfig ("https://" ++ "s3." ++ "us-west-004" ++ ".backblazeb2.com") ""
                "id" "secret" in
   snd (StorageGo.NewStorage cfg (sample_world 0)) <> Panic /\
   (forall s, snd (StorageGo.NewStorage cfg (sample_world 0)) = Ok s ->
              Region (StorageGo.config s) = "us-west-004") /\
   snd (Part000.New cfg (sample_world 0)) <> Panic /\
   (forall s, snd (Part000.New cfg (sample_world 0)) = Ok s ->
              Region (Part000.config s) = "us-west-004")) /\
  (forall s, snd (StorageGo.NewStorage (mkConfig "acc.r2.cloudflarestorage.com" "" "id" "secret")
                                        (sample_world 0)) = Ok s ->
             Region (StorageGo.config s) = "auto") /\
  (forall s, snd (Part000.New (mkConfig "acc.r2.cloudflarestorage.com" "" "id" "secret")
                              (sample_world 0)) = Ok s ->
             Region (Part000.config s) = "auto").
Proof.
  destruct backblaze_region_resolution as [H1 H2].
  split.
  - apply (H1 "https://" "us-west-004" "id" "secret" (sample_world 0));
      [right; right; left; reflexivity | discriminate | reflexivity].
  - apply (H2 (mkConfig "acc.r2.cloudflarestorage.com" "" "id" "secret") (sample_world 0)).
    reflexivity.
Defined.

Lemma cdn_direct_requests_witness :
  StorageGo.Type_ bunny_storage = StorageGo.bunnyCDN /\
  (forall r, In (EvHttp r) (fst (StorageGo.Upload bunny_storage "bk" "/tmp/a.txt" "x.txt" []
                                                   (sample_world 3))) ->
     exists ct, cdn_request bunny_storage "bk" "x.txt" "PUT" [("Content-Type", ct)] r) /\
  (forall r, In (EvHttp r) (fst (StorageGo.Download bunny_storage "bk" "x.txt" "/tmp/out"
                                                     (sample_world 3))) ->
     cdn_request bunny_storage "bk" "x.txt" "GET" [] r) /\
  (forall r, In (EvHttp r) (fst (StorageGo.Delete bunny_storage "bk" "x.txt" (sample_world 3))) ->
     cdn_request bunny_storage "bk" "x.txt" "DELETE" [] r) /\
  (forall s', same_but_access_key bunny_storage s' ->
     StorageGo.Upload s' "bk" "/tmp/a.txt" "x.txt" [] (sample_world 3)
     = StorageGo.Upload bunny_storage "bk" "/tmp/a.txt" "x.txt" [] (sample_world 3) /\
     StorageGo.Download s' "bk" "x.txt" "/tmp/out" (sample_world 3)
     = StorageGo.Download bunny_storage "bk" "x.txt" "/tmp/out" (sample_world 3) /\
     StorageGo.Delete s' "bk" "x.txt" (sample_world 3)
     = StorageGo.Delete bunny_storage "bk" "x.txt" (sample_world 3)).
Proof.
  split; [reflexivity|].
  apply (cdn_direct_requests bunny_storage (sample_world 3) "bk" "/tmp/a.txt" "x.txt"
           "/tmp/out" []).
  reflexivity.
Defined.

Lemma zero_size_upload_rejected_witness :
  StorageGo.Upload r2_storage "bk" "/tmp/empty" "x.txt" [] (origin_world "" 0 [])
  = ([EvReadFile "/tmp/empty"], Err "zero size file") /\
  Part000.Upload r2_storage_v2 "bk" "x.txt" "/tmp/empty" [] (origin_world "" 0 [])
  = ([EvOpen "/tmp/empty"; EvStat "/tmp/empty"], Err "zero size file") /\
  (Part000.Upload r2_storage_v2 "bk" "x.txt" "https://example.com/e.png" []
     (origin_world "" 0 [])
   = ([EvHttp (Part000.origin_request (Part000.first_options []) "https://example.com/e.png")],
      Err "zero size file") /\
   req_method (Part000.origin_request (Part000.first_options []) "https://example.com/e.png")
   = "GET") /\
  (Part000.Upload r2_storage_v2 "bk" "x.txt" "/tmp/empty" [] (origin_world "" 0 [])
   = ([EvOpen "/tmp/empty"; EvStat "/tmp/empty"], Err "zero size file") /\
   (forall ev, In ev [EvOpen "/tmp/empty"; EvStat "/tmp/empty"] ->
      ev = EvOpen "/tmp/empty" \/ ev = EvStat "/tmp/empty" \/
      ev = EvHttp (Part000.origin_request (Part000.first_options []) "/tmp/empty"))).
Proof.
  destruct zero_size_upload_rejected as (H1 & H2 & H3 & H4).
  split; [apply (H1 r2_storage (origin_world "" 0 []) "bk" "/tmp/empty" "x.txt" [] []);
          reflexivity|].
  split; [apply (H2 r2_storage_v2 (origin_world "" 0 []) "bk" "x.txt" "/tmp/empty" []);
          reflexivity|].
  split; [apply (H3 r2_storage_v2 (origin_world "" 0 []) "bk" "x.txt"
                   "https://example.com/e.png" [] (mkResponse 200 "200 OK" [("Content-Type", "")] 0 []));
          reflexivity|].
  apply (H4 r2_storage_v2 (origin_world "" 0 []) "bk" "x.txt" "/tmp/empty" []
           [EvOpen "/tmp/empty"; EvStat "/tmp/empty"] "application/octet-stream").
  vm_compute. reflexivity.
Defined.

Lemma upload_content_type_resolution_witness :
  put_content_type (mkPut "bk" "x.txt" (BodyBytes abc) "image/png")
  = match ([] : list string) with c :: _ => c | [] => w_content_type (sample_world 3) "/tmp/a.png" end /\
  header_get (req_headers (mkRequest "PUT" "https://sg.storage.bunnycdn.com/bk/x.txt"
                             [("AccessKey", "secret"); ("Content-Type", "image/png")]
                             (BodyBytes abc))) "Content-Type"
  = match ([] : list string) with c :: _ => c | [] => w_content_type (sample_world 3) "/tmp/a.png" end /\
  put_content_type (mkPut "bk" "x.txt" (BodyFile "/tmp/a.png") "image/png")
  = (let c := Part000.ContentType (Part000.first_options []) in
     if String.eqb c "" then w_content_type (sample_world 3) "/tmp/a.png" else c) /\
  put_content_type (mkPut "bk" "x.txt" (BodyRemote "https://example.com/a.png") "image/jpeg")
  = (let opt := Part000.first_options [] in
     let c := if String.eqb (Part000.ContentType opt) ""
              then header_get (resp_headers (mkResponse 200 "200 OK"
                                 [("Content-Type", "image/jpeg")] 3 abc)) "Content-Type"
              else Part000.ContentType opt in
     if String.eqb c "" then w_content_type (origin_world "image/jpeg" 3 abc)
                               "https://example.com/a.png" else c).
Proof.
  destruct upload_content_type_resolution as (H1 & H2 & H3 & H4).
  split; [apply (H1 r2_storage (sample_world 3) "bk" "/tmp/a.png" "x.txt" []);
          vm_compute; right; left; reflexivity|].
  split; [apply (H2 bunny_storage (sample_world 3) "bk" "/tmp/a.png" "x.txt" []);
          vm_compute; right; left; reflexivity|].
  split; [apply (H3 r2_storage_v2 (sample_world 3) "bk" "x.txt" "/tmp/a.png" [] 3);
          [reflexivity | reflexivity | reflexivity | vm_compute; right; right; left; reflexivity]|].
  apply (H4 r2_storage_v2 (origin_world "image/jpeg" 3 abc) "bk" "x.txt"
           "https://example.com/a.png" []);
    [reflexivity | reflexivity | reflexivity | reflexivity
    | vm_compute; right; left; reflexivity].
Defined.

Lemma upload_verification_witness :
  ((exists ct, fst (StorageGo.Upload r2_storage "bk" "/tmp/a.txt" "x.txt" [] (sample_world 3))
               = [EvReadFile "/tmp/a.txt"; EvS3Put (mkPut "bk" "x.txt" (BodyBytes abc) ct);
                  EvS3Head "bk" "x.txt"]) /\
   snd (StorageGo.Upload r2_storage "bk" "/tmp/a.txt" "x.txt" [] (sample_world 3))
   = verification_outcome (Z.of_nat (List.length abc)) (w_s3_head (sample_world 3) "bk" "x.txt")) /\
  ((exists body, fst (Part000.Upload r2_storage_v2 "bk" "x.txt" "/tmp/a.png" [] (sample_world 3))
                 = List.app [EvOpen "/tmp/a.png"; EvStat "/tmp/a.png"]
                     [EvS3Put (mkPut "bk" "x.txt" body "image/png"); EvS3Head "bk" "x.txt"]) /\
   snd (Part000.Upload r2_storage_v2 "bk" "x.txt" "/tmp/a.png" [] (sample_world 3))
   = verification_outcome 3 (w_s3_head (sample_world 3) "bk" "x.txt")) /\
  (verification_outcome 3 (Ok (mkHead (Some 7))) = Err "upload failed" <-> 3 <> 7) /\
  ((forall b k, ~ In (EvS3Head b k)
                  (fst (StorageGo.Upload bunny_storage "bk" "/tmp/a.txt" "x.txt" [] (sample_world 7)))) /\
   snd (StorageGo.Upload bunny_storage "bk" "/tmp/a.txt" "x.txt" [] (sample_world 7)) = Ok tt).
Proof.
  destruct upload_verification as (H1 & H2 & H3 & H4).
  split; [apply (H1 r2_storage (sample_world 3) "bk" "/tmp/a.txt" "x.txt" [] abc);
          [reflexivity | vm_compute; discriminate | reflexivity | vm_compute; discriminate
          | intros; reflexivity]|].
  split; [apply (H2 r2_storage_v2 (sample_world 3) "bk" "x.txt" "/tmp/a.png" []);
          [reflexivity | discriminate | intros; reflexivity]|].
  split; [exact (proj1 (H3 3 7))|].
  destruct (H4 bunny_storage (sample_world 7) "bk" "/tmp/a.txt" "x.txt" []) as [H5 H6];
    [reflexivity|].
  split; [exact H5|].
  apply (H6 abc (sample_response 201 "201 Created" []));
    [reflexivity | vm_compute; discriminate | reflexivity | intros; reflexivity | reflexivity].
Defined.

(* ------------------------------------------------------------------ *)
(** ** The further properties at concrete inputs *)

Lemma constructors_missing_endpoint_witness :
  StorageGo.NewStorage (mkConfig "" "" "id" "secret") (sample_world 0)
  = ([], Err StorageGo.missing_endpoint) /\
  Part000.New (mkConfig "" "" "id" "secret") (sample_world 0)
  = ([], Err Part000.missing_endpoint).
Proof. apply constructors_missing_endpoint. reflexivity. Defined.

Lemma explicit_region_kept_witness :
  let c := mkConfig "https://s3.us-west-004.backblazeb2.com" "eu" "id" "secret" in
  snd (StorageGo.NewStorage b2_config (sample_world 0)) <> Panic /\
  (forall s, snd (StorageGo.NewStorage b2_config (sample_world 0)) = Ok s ->
             StorageGo.config s = c) /\
  snd (Part000.New b2_config (sample_world 0)) <> Panic /\
  (forall s, snd (Part000.New b2_config (sample_world 0)) = Ok s -> Part000.config s = c).
Proof.
  apply (explicit_region_kept b2_config (sample_world 0)); vm_compute; discriminate.
Defined.

Lemma constructors_load_config_witness :
  let c := mkConfig "https://acc.r2.cloudflarestorage.com" "auto" "id" "secret" in
  StorageGo.NewStorage (mkConfig "acc.r2.cloudflarestorage.com" "" "id" "secret")
    (sample_world 0)
  = ([EvLoadConfig "id" "secret" "auto"], Ok (StorageGo.mkStorage c true)) /\
  Part000.New (mkConfig "acc.r2.cloudflarestorage.com" "" "id" "secret") (sample_world 0)
  = ([EvLoadConfig "id" "secret" "auto"], Ok (Part000.mkStorage c)) /\
  StorageGo.NewStorage (mkConfig "sg.storage.bunnycdn.com" "" "id" "secret") (sample_world 0)
  = ([], Ok (StorageGo.mkStorage
               (mkConfig "https://sg.storage.bunnycdn.com" "auto" "id" "secret") false)) /\
  Part000.New (mkConfig "sg.storage.bunnycdn.com" "" "id" "secret") (sample_world 0)
  = ([EvLoadConfig "id" "secret" "auto"],
     Ok (Part000.mkStorage (mkConfig "https://sg.storage.bunnycdn.com" "auto" "id" "secret"))).
Proof.
  destruct (constructors_load_config (mkConfig "acc.r2.cloudflarestorage.com" "" "id" "secret")
              (mkConfig "https://acc.r2.cloudflarestorage.com" "auto" "id" "secret")
              (sample_world 0)) as (_ & H2 & H3); [reflexivity|].
  destruct (constructors_load_config (mkConfig "sg.storage.bunnycdn.com" "" "id" "secret")
              (mkConfig "https://sg.storage.bunnycdn.com" "auto" "id" "secret")
              (sample_world 0)) as (H4 & _ & H5); [reflexivity|].
  split; [exact (H2 eq_refl)|].
  split; [exact H3|].
  split; [exact (H4 eq_refl)|].
  exact H5.
Defined.

Lemma NewStorage_client_iff_witness :
  let s := StorageGo.mkStorage (mkConfig "https://sg.storage.bunnycdn.com" "auto" "id" "secret")
             false in
  (StorageGo.has_client s = false <-> Contains (Endpoint (StorageGo.config s)) "bunnycdn" = true) /\
  (StorageGo.Type_ s = StorageGo.bunnyCDN -> StorageGo.has_client s = false).
Proof.
  apply (NewStorage_client_iff (mkConfig "sg.storage.bunnycdn.com" "" "id" "secret")
           (sample_world 0)).
  reflexivity.
Defined.

Lemma clientless_handle_panics_witness :
  let s := StorageGo.mkStorage
             (mkConfig "https://bunnycdn.acc.r2.cloudflarestorage.com" "auto" "id" "secret")
             false in
  snd (StorageGo.NewStorage mixed_config (sample_world 0)) = Ok s /\
  StorageGo.Type_ s = StorageGo.r2 /\
  StorageGo.Info s "bk" "x.txt" (sample_world 3) = ([], Panic) /\
  StorageGo.List_ s "bk" "" 10 [] (sample_world 3) = ([], Panic) /\
  StorageGo.Delete s "bk" "x.txt" (sample_world 3) = ([], Panic) /\
  StorageGo.PresignGet s "bk" "x.txt" 60 (sample_world 3) = ([], Panic) /\
  StorageGo.PresignPut s "bk" "x.txt" 60 (sample_world 3) = ([], Panic) /\
  StorageGo.Upload s "bk" "/tmp/a.txt" "x.txt" [] (sample_world 3)
  = ([EvReadFile "/tmp/a.txt"], Panic) /\
  StorageGo.Download s "bk" "x.txt" "/tmp/out" (sample_world 3)
  = ([EvCreate "/tmp/out"], Panic).
Proof.
  destruct (clientless_handle_panics mixed_config (sample_world 0) (sample_world 3)
              (StorageGo.mkStorage
                 (mkConfig "https://bunnycdn.acc.r2.cloudflarestorage.com" "auto" "id" "secret")
                 false)
              "bk" "x.txt" "" "/tmp/a.txt" "/tmp/out" 10 60 [] [] abc)
    as (H1 & H2 & H3 & H4 & H5 & H6 & H7);
    [reflexivity | reflexivity | vm_compute; discriminate |].
  split; [reflexivity|]. split; [reflexivity|].
  repeat (split; [assumption|]).
  split; [apply H6; [reflexivity | discriminate]|].
  apply H7. reflexivity.
Defined.

Lemma List_request_witness :
  fst (StorageGo.List_ r2_storage "bk" "p/" 5000 ["t1"; "t2"] (sample_world 0))
  = [EvS3List (mkList "bk" "p/" 1000 (Some "t1"))] /\
  fst (Part000.List_ r2_storage_v2 "bk" "p/" 5000 ["t1"; "t2"] (sample_world 0))
  = [EvS3List (mkList "bk" "p/" 1000 (Some "t1"))].
Proof.
  apply (List_request r2_storage r2_storage_v2 (sample_world 0) "bk" "p/" 5000 ["t1"; "t2"]);
    [reflexivity | vm_compute; discriminate | lia].
Defined.

Lemma List_keys_witness :
  (exists keys next,
     snd (StorageGo.List_ r2_storage "bk" "" 10 [] nil_key_world) = Ok (keys, next) /\
     snd (Part000.List_ r2_storage_v2 "bk" "" 10 [] nil_key_world) = Ok (keys, next) /\
     List.length keys = List.length [None; Some "a"] /\
     (forall n k, nth_error [None; Some "a"] n = Some (Some k) -> nth_error keys n = Some k) /\
     (forall n, nth_error [None; Some "a"] n = Some None -> nth_error keys n = Some "") /\
     (next = "" <-> @None string = None \/ @None string = Some "")) /\
  snd (StorageGo.List_ r2_storage "bk" "" 10 [] (sample_world 0)) = Ok ([], "").
Proof.
  destruct (List_keys r2_storage r2_storage_v2 nil_key_world "bk" "" 10 [])
    as [H1 _]; [reflexivity | vm_compute; discriminate |].
  split; [apply (H1 (mkListOut [None; Some "a"] None)); reflexivity|].
  destruct (List_keys r2_storage r2_storage_v2 (sample_world 0) "bk" "" 10 [])
    as [H2 _]; [reflexivity | vm_compute; discriminate |].
  destruct (H2 (mkListOut [] None)) as (keys & next & E & _ & L & _ & _ & N);
    [reflexivity|].
  rewrite E. destruct keys; [|discriminate L].
  f_equal. f_equal. apply N. left. reflexivity.
Defined.

Lemma upload_local_source_errors_witness :
  StorageGo.Upload r2_storage "bk" "/tmp/a.txt" "x.txt" [] broken_world
  = ([EvReadFile "/tmp/a.txt"], Err "missing") /\
  Part000.Upload r2_storage_v2 "bk" "x.txt" "/tmp/a.txt" [] broken_world
  = ([EvOpen "/tmp/a.txt"], Err "missing") /\
  Part000.Upload r2_storage_v2 "bk" "x.txt" "/tmp/a.txt" [] stat_broken_world
  = ([EvOpen "/tmp/a.txt"; EvStat "/tmp/a.txt"], Panic).
Proof.
  destruct upload_local_source_errors as (H1 & H2 & H3).
  split; [apply H1; reflexivity|].
  split; [apply H2; reflexivity|].
  apply H3; reflexivity.
Defined.

Lemma upload_remote_source_errors_witness :
  let req := Part000.origin_request (Part000.first_options []) "https://example.com/a.png" in
  Part000.Upload r2_storage_v2 "bk" "x.txt" "https://example.com/a.png" [] broken_world
  = ([], Panic) /\
  Part000.Upload r2_storage_v2 "bk" "x.txt" "https://example.com/a.png" [] http_broken_world
  = ([EvHttp req], Err "timeout") /\
  Part000.Upload r2_storage_v2 "bk" "x.txt" "https://example.com/a.png" []
    (status_world 404 None)
  = ([EvHttp req], Err ("origin download failed: " ++ "404")).
Proof.
  destruct upload_remote_source_errors as (H1 & H2 & H3).
  split; [apply (H1 _ _ _ _ _ _ "bad url"); reflexivity|].
  split; [apply H2; reflexivity|].
  apply (H3 _ _ _ _ _ _ (mkResponse 404 "404" [] 3 abc));
    [reflexivity | reflexivity | reflexivity | discriminate].
Defined.

Lemma upload_put_and_head_failures_witness :
  StorageGo.Upload r2_storage "bk" "/tmp/a.txt" "x.txt" [] put_broken_world
  = ([EvReadFile "/tmp/a.txt"; EvS3Put (mkPut "bk" "x.txt" (BodyBytes abc) "text/plain")],
     Err "denied") /\
  snd (StorageGo.Upload r2_storage "bk" "/tmp/a.txt" "x.txt" [] head_broken_world) = Panic /\
  Part000.Upload r2_storage_v2 "bk" "x.txt" "/tmp/a.png" [] put_broken_world
  = (List.app [EvOpen "/tmp/a.png"; EvStat "/tmp/a.png"]
       [EvS3Put (mkPut "bk" "x.txt" (BodyFile "/tmp/a.png") "image/png")], Err "denied") /\
  snd (Part000.Upload r2_storage_v2 "bk" "x.txt" "/tmp/a.png" [] head_broken_world) = Panic.
Proof.
  destruct upload_put_and_head_failures as (H1 & H2 & H3 & H4).
  split; [refine (H1 r2_storage put_broken_world "bk" "/tmp/a.txt" "x.txt" [] abc "denied"
                    _ _ _ _ _);
          [reflexivity | vm_compute; discriminate | reflexivity | discriminate
          | intros; reflexivity]|].
  split; [apply (H2 _ _ _ _ _ _ abc);
          [reflexivity | vm_compute; discriminate | reflexivity | discriminate
          | intros; reflexivity | reflexivity]|].
  split; [refine (H3 r2_storage_v2 put_broken_world "bk" "x.txt" "/tmp/a.png" []
                    [EvOpen "/tmp/a.png"; EvStat "/tmp/a.png"] "image/png" 3 "denied" _ _ _);
          [reflexivity | discriminate | intros; reflexivity]|].
  apply (H4 _ _ _ _ _ _ [EvOpen "/tmp/a.png"; EvStat "/tmp/a.png"] "image/png" 3);
    [reflexivity | discriminate | intros; reflexivity | reflexivity].
Defined.

Lemma cdn_upload_status_witness :
  let req := cdn_put_request bunny_storage "bk" "x.txt" "text/plain" abc in
  StorageGo.Upload bunny_storage "bk" "/tmp/a.txt" "x.txt" [] (status_world 500 None)
  = ([EvReadFile "/tmp/a.txt"; EvHttp req], Err ("upload failed: " ++ "abc")) /\
  StorageGo.Upload bunny_storage "bk" "/tmp/a.txt" "x.txt" [] (status_world 201 None)
  = ([EvReadFile "/tmp/a.txt"; EvHttp req], Ok tt).
Proof.
  destruct (cdn_upload_status bunny_storage (status_world 500 None) "bk" "/tmp/a.txt" "x.txt"
              [] abc (mkResponse 500 "500" [] 3 abc)) as [H1 _];
    [reflexivity | reflexivity | discriminate | reflexivity | reflexivity|].
  destruct (cdn_upload_status bunny_storage (status_world 201 None) "bk" "/tmp/a.txt" "x.txt"
              [] abc (mkResponse 201 "201" [] 3 abc)) as [_ H2];
    [reflexivity | reflexivity | discriminate | reflexivity | reflexivity|].
  split; [apply H1 | apply H2]; cbn [resp_status_code]; lia.
Defined.

Lemma cdn_delete_status_witness :
  let req := cdn_plain_request bunny_storage "DELETE" "bk" "x.txt" in
  StorageGo.Delete bunny_storage "bk" "x.txt" (status_world 404 None)
  = ([EvHttp req], Err ("delete failed: " ++ "abc")) /\
  StorageGo.Delete bunny_storage "bk" "x.txt" (status_world 204 None) = ([EvHttp req], Ok tt).
Proof.
  destruct (cdn_delete_status bunny_storage (status_world 404 None) "bk" "x.txt"
              (mkResponse 404 "404" [] 3 abc)) as [H1 _];
    [reflexivity | reflexivity | reflexivity|].
  destruct (cdn_delete_status bunny_storage (status_world 204 None) "bk" "x.txt"
              (mkResponse 204 "204" [] 3 abc)) as [_ H2];
    [reflexivity | reflexivity | reflexivity|].
  split; [apply H1 | apply H2]; cbn [resp_status_code]; lia.
Defined.

Lemma cdn_bad_url_witness :
  StorageGo.Delete bunny_storage "bk" "x.txt" url_broken_world = ([], Panic) /\
  StorageGo.Download bunny_storage "bk" "x.txt" "/tmp/out" url_broken_world
  = ([], Err "bad url") /\
  StorageGo.Upload bunny_storage "bk" "/tmp/a.txt" "x.txt" [] url_broken_world
  = ([EvReadFile "/tmp/a.txt"], Err "bad url").
Proof.
  destruct (cdn_bad_url bunny_storage url_broken_world "bk" "/tmp/a.txt" "x.txt" "/tmp/out"
              [] abc) as (H1 & H2 & H3); [reflexivity|].
  split; [apply (H1 "bad url"); reflexivity|].
  split; [apply H2; reflexivity|].
  apply H3; [reflexivity | discriminate | reflexivity].
Defined.

Lemma cdn_download_status_witness :
  let req := cdn_plain_request bunny_storage "GET" "bk" "x.txt" in
  StorageGo.Download bunny_storage "bk" "x.txt" "/tmp/out" (status_world 204 None)
  = ([EvHttp req], Err ("download failed, status: " ++ "204")) /\
  StorageGo.Download bunny_storage "bk" "x.txt" "/tmp/out" (status_world 200 (Some "denied"))
  = ([EvHttp req; EvCreate "/tmp/out"], Err ("cannot create file: " ++ "denied")) /\
  StorageGo.Download bunny_storage "bk" "x.txt" "/tmp/out" (status_world 200 None)
  = ([EvHttp req; EvCreate "/tmp/out"; EvCopy "/tmp/out" abc], Ok tt).
Proof.
  destruct (cdn_download_status bunny_storage (status_world 204 None) "bk" "x.txt" "/tmp/out"
              (mkResponse 204 "204" [] 3 abc)) as [H1 _];
    [reflexivity | reflexivity | reflexivity|].
  destruct (cdn_download_status bunny_storage (status_world 200 (Some "denied")) "bk" "x.txt"
              "/tmp/out" (mkResponse 200 "200" [] 3 abc)) as [_ H2];
    [reflexivity | reflexivity | reflexivity|].
  destruct (cdn_download_status bunny_storage (status_world 200 None) "bk" "x.txt"
              "/tmp/out" (mkResponse 200 "200" [] 3 abc)) as [_ H3];
    [reflexivity | reflexivity | reflexivity|].
  split; [apply H1; discriminate|].
  split; [apply (proj1 (H2 eq_refl)); reflexivity|].
  apply (proj2 (H3 eq_refl)). reflexivity.
Defined.

Lemma s3_download_creates_first_witness :
  StorageGo.Download r2_storage "bk" "x.txt" "/tmp/out" broken_world
  = ([EvCreate "/tmp/out"], Err ("cannot create file: " ++ "denied")) /\
  StorageGo.Download r2_storage "bk" "x.txt" "/tmp/out" (sample_world 3)
  = ([EvCreate "/tmp/out"; EvS3Get "bk" "x.txt" "/tmp/out"], Ok tt) /\
  Part000.Download r2_storage_v2 "bk" "x.txt" "/tmp/out" broken_world
  = ([EvCreate "/tmp/out"], Err ("cannot create file: " ++ "denied")) /\
  Part000.Download r2_storage_v2 "bk" "x.txt" "/tmp/out" (sample_world 3)
  = ([EvCreate "/tmp/out"; EvS3Get "bk" "x.txt" "/tmp/out"], Ok tt).
Proof.
  destruct s3_download_creates_first as [H1 H2].
  destruct (H1 r2_storage broken_world "bk" "x.txt" "/tmp/out") as [A _];
    [reflexivity | vm_compute; discriminate |].
  destruct (H1 r2_storage (sample_world 3) "bk" "x.txt" "/tmp/out") as [_ B];
    [reflexivity | vm_compute; discriminate |].
  destruct (H2 r2_storage_v2 broken_world "bk" "x.txt" "/tmp/out") as [C _].
  destruct (H2 r2_storage_v2 (sample_world 3) "bk" "x.txt" "/tmp/out") as [_ D].
  split; [apply A; reflexivity|].
  split; [apply B; reflexivity|].
  split; [apply C; reflexivity|].
  apply D; reflexivity.
Defined.

Lemma constructors_agree_witness :
  fst (StorageGo.NewStorage (mkConfig "acc.r2.cloudflarestorage.com" "" "id" "secret")
         (sample_world 0))
  = fst (Part000.New (mkConfig "acc.r2.cloudflarestorage.com" "" "id" "secret")
           (sample_world 0)) /\
  snd (StorageGo.NewStorage (mkConfig "acc.r2.cloudflarestorage.com" "" "id" "secret")
         (sample_world 0))
  = match snd (Part000.New (mkConfig "acc.r2.cloudflarestorage.com" "" "id" "secret")
                 (sample_world 0)) with
    | Ok s => Ok (StorageGo.mkStorage (Part000.config s) true)
    | Err e => Err e
    | Panic => Panic
    end.
Proof.
  apply constructors_agree; [discriminate | reflexivity].
Defined.

Lemma operations_agree_witness :
  let s' := Part000.mkStorage (StorageGo.config r2_storage) in
  StorageGo.Info r2_storage "bk" "x.txt" broken_world = Part000.Info s' "bk" "x.txt" broken_world /\
  StorageGo.List_ r2_storage "bk" "" 10 [] broken_world
  = Part000.List_ s' "bk" "" 10 [] broken_world /\
  StorageGo.Delete r2_storage "bk" "x.txt" broken_world = Part000.Delete s' "bk" "x.txt" broken_world /\
  StorageGo.Download r2_storage "bk" "x.txt" "/tmp/out" broken_world
  = Part000.Download s' "bk" "x.txt" "/tmp/out" broken_world /\
  StorageGo.PresignGet r2_storage "bk" "x.txt" 60 broken_world
  = Part000.PresignGet s' "bk" "x.txt" 60 broken_world /\
  StorageGo.PresignPut r2_storage "bk" "x.txt" 60 broken_world
  = Part000.PresignPut s' "bk" "x.txt" 60 broken_world.
Proof.
  apply operations_agree; [reflexivity | vm_compute; discriminate].
Defined.

Lemma reconstruct_from_config_witness :
  let s := StorageGo.mkStorage (mkConfig "https://s3.us-west-004.backblazeb2.com" "us-west-004"
                                  "id" "secret") true in
  snd (StorageGo.NewStorage (StorageGo.config s) (sample_world 0)) <> Panic /\
  (forall s', snd (StorageGo.NewStorage (StorageGo.config s) (sample_world 0)) = Ok s' ->
              StorageGo.config s' = StorageGo.config s) /\
  snd (Part000.New (Part000.config (Part000.mkStorage (StorageGo.config s))) (sample_world 0))
  <> Panic.
Proof.
  destruct reconstruct_from_config as [H1 H2].
  destruct (H1 (mkConfig "s3.us-west-004.backblazeb2.com" "" "id" "secret") (sample_world 0)
              (sample_world 0)
              (StorageGo.mkStorage (mkConfig "https://s3.us-west-004.backblazeb2.com"
                                     "us-west-004" "id" "secret") true)) as [A B];
    [reflexivity|].
  destruct (H2 (mkConfig "s3.us-west-004.backblazeb2.com" "" "id" "secret") (sample_world 0)
              (sample_world 0)
              (Part000.mkStorage (mkConfig "https://s3.us-west-004.backblazeb2.com"
                                   "us-west-004" "id" "secret"))) as [C _];
    [reflexivity|].
  split; [exact A|]. split; [exact B|]. exact C.
Defined.
